(** * auto_quality_optimizer-webp.py: the WebP quality search

    A shallow embedding of [auto_quality_optimizer-webp.py].  The script
    walks a folder of images and, for each one, runs a binary search over
    the [cwebp] quality setting, measuring every candidate with SSIM, and
    then encodes the image once more at the quality it settled on.

    The Python code talks to the file system, to an external encoder and to
    three libraries (PIL, numpy, scikit-image).  Those are the fields of the
    class [Environment]; everything the script itself decides is a
    definition below and follows the source line by line. *)

From Stdlib Require Import ZArith List String Ascii Bool Lia Sorted.
From Stdlib Require Import Floats.SpecFloat.
From Stdlib Require Import DecimalString DecimalZ.
Import ListNotations.

Local Open Scope string_scope.
Local Open Scope list_scope.
Local Open Scope Z_scope.

(** ** Python values *)

(** A Python [float] (and numpy's [float64]) is an IEEE binary64 value.
    [spec_float] is the Standard Library's axiom-free description of such
    values; [SFleb] is the IEEE comparison, false whenever a NaN is
    involved, exactly as Python's [<=].  The [int] 0 that [calculate_ssim]
    returns on failure compares like the float zero. *)
Definition pyfloat := spec_float.

Definition float_zero : pyfloat := S754_zero false.

(** [a >= b] on Python floats. *)
Definition float_ge (a b : pyfloat) : bool := SFleb b a.

(** [str(n)] for a Python [int]. *)
Definition str (n : Z) : string := NilZero.string_of_int (Z.to_int n).

(** [s.lower()], on the ASCII letters. *)
Definition lower_ascii (c : ascii) : ascii :=
  let n := nat_of_ascii c in
  if (Nat.leb 65 n && Nat.leb n 90)%bool then ascii_of_nat (n + 32) else c.

Fixpoint lower (s : string) : string :=
  match s with
  | EmptyString => EmptyString
  | String c s' => String (lower_ascii c) (lower s')
  end.

(** [s.endswith(suffix)]. *)
Definition endswith (s suffix : string) : bool :=
  let n := String.length s in
  let k := String.length suffix in
  (Nat.leb k n && String.eqb (substring (n - k) k s) suffix)%bool.

(** [filename.lower().endswith(('.png', '.jpg', '.jpeg'))]. *)
Definition is_image_name (filename : string) : bool :=
  let l := lower filename in
  (endswith l ".png" || endswith l ".jpg" || endswith l ".jpeg")%bool.

(** [os.path.join(a, b)] on a POSIX system. *)
Definition path_join (a b : string) : string :=
  if prefix "/" b then b
  else if (String.eqb a "" || endswith a "/")%bool then a ++ b
  else a ++ "/" ++ b.

(** ** Configuration (lines 9-24) *)

Record config := {
  SOURCE_FOLDER : string;
  OUTPUT_FOLDER : string;
  TARGET_SSIM : pyfloat;
  MIN_QUALITY : Z;
  MAX_QUALITY : Z;
  WEBP_METHOD : Z
}.

(** The binary64 value of the literal [0.98]:
    8827055269646172 * 2^-53. *)
Definition float_0_98 : pyfloat := S754_finite false 8827055269646172 (-53).

Definition default_config : config := {|
  SOURCE_FOLDER := "images";
  OUTPUT_FOLDER := "optimized_images";
  TARGET_SSIM := float_0_98;
  MIN_QUALITY := 40;
  MAX_QUALITY := 95;
  WEBP_METHOD := 6
|}.

(** ** The encoder command lines (lines 83 and 102) *)

Definition search_cmd (cfg : config) (quality : Z) (input_path temp_path : string)
  : list string :=
  ["cwebp"; "-q"; str quality; "-m"; str (WEBP_METHOD cfg);
   input_path; "-o"; temp_path].

Definition final_cmd (cfg : config) (best_quality : Z) (input_path output_path : string)
  : list string :=
  ["cwebp"; "-q"; str best_quality; "-m"; str (WEBP_METHOD cfg);
   "-mt"; "-sharp_yuv"; input_path; "-o"; output_path].

(** The options that only the final pass gives to [cwebp]. *)
Definition filter_flags : list string := ["-mt"; "-sharp_yuv"].

Definition has_filter_flag (cmd : list string) : bool :=
  existsb (fun a => existsb (String.eqb a) filter_flags) cmd.

(** ** The search state (lines 75-77) and one decision (lines 80, 91-97) *)

Record SearchState := {
  low : Z;
  high : Z;
  best_quality : Z
}.

Definition initial_state (cfg : config) : SearchState := {|
  low := MIN_QUALITY cfg;
  high := MAX_QUALITY cfg;
  best_quality := MAX_QUALITY cfg
|}.

(** [while low <= high] *)
Definition looping (st : SearchState) : bool := low st <=? high st.

(** [quality = (low + high) // 2]; Python's [//] rounds down, as [Z.div]. *)
Definition quality_of (st : SearchState) : Z := (low st + high st) / 2.

(** [current_ssim >= TARGET_SSIM] *)
Definition good_enough (cfg : config) (current_ssim : pyfloat) : bool :=
  float_ge current_ssim (TARGET_SSIM cfg).

(** The [if]/[else] that ends the loop body. *)
Definition decide (cfg : config) (st : SearchState) (current_ssim : pyfloat)
  : SearchState :=
  let quality := quality_of st in
  if good_enough cfg current_ssim then
    {| low := low st; high := quality - 1; best_quality := quality |}
  else
    {| low := quality + 1; high := high st; best_quality := best_quality st |}.

(** ** Effects *)

(** What leaves the script as an exception: [subprocess.run(..., check=True)]
    turns a non-zero exit status into [CalledProcessError], and
    [os.path.getsize] raises [OSError] ([FileNotFoundError] is one) for a
    path that is not there or cannot be read. *)
Inductive exception :=
| CalledProcessError (returncode : Z) (cmd : list string)
| OSError (path : string).

Inductive outcome (A : Type) :=
| Return (a : A)
| Raise (e : exception)
| OutOfFuel.
Arguments Return {A} a.
Arguments Raise {A} e.
Arguments OutOfFuel {A}.

(** Lines written to standard output.  Numbers that the script formats
    (sizes in KiB, percentages, [:.4f]) are kept as the values formatted. *)
Inductive event (exn : Type) :=
| PrintToolMissing
| PrintToolFound (target : pyfloat)
| PrintProcessing (filename : string)
| PrintWarning (e : exn)
| PrintTest (quality : Z) (current_ssim : pyfloat)
| PrintNewline
| PrintOptimal (filename : string) (original_size : Z)
               (output_path : string) (optimized_size : Z)
| PrintBest (best : Z) (savings original_size : Z)
| PrintSummary (image_count total_savings : Z)
| PrintNoImages.
Arguments PrintToolMissing {exn}.
Arguments PrintToolFound {exn} target.
Arguments PrintProcessing {exn} filename.
Arguments PrintWarning {exn} e.
Arguments PrintTest {exn} quality current_ssim.
Arguments PrintNewline {exn}.
Arguments PrintOptimal {exn} filename original_size output_path optimized_size.
Arguments PrintBest {exn} best savings original_size.
Arguments PrintSummary {exn} image_count total_savings.
Arguments PrintNoImages {exn}.

(** ** The outside world *)

(** What the script calls but does not define.  The encoder and the imaging
    libraries can fail, and the script reacts to that; the other
    file-system calls are taken to succeed. *)
Class Environment := {
  (** The file system, as the script and its helpers see it. *)
  World : Type;

  (** [shutil.which], [os.path.exists], [os.makedirs], [os.listdir],
      [os.remove], [os.path.getsize], [os.path.splitext(...)[0]].
      [getsize] gives [None] where [os.path.getsize] raises. *)
  which : World -> string -> option string;
  path_exists : World -> string -> bool;
  makedirs : string -> World -> World;
  listdir : World -> string -> list string;
  remove : string -> World -> World;
  getsize : World -> string -> option Z;
  splitext_root : string -> string;

  (** [subprocess.run(cmd, capture_output=True)]: the exit status and the
      file system the process leaves behind. *)
  run_process : list string -> World -> Z * World;

  (** PIL, numpy and scikit-image.  Each call either raises ([inl]) or
      returns ([inr]). *)
  exn : Type;
  image : Type;
  array : Type;
  Image_open : World -> string -> exn + image;
  convert_L : image -> exn + image;
  size : image -> Z * Z;
  resize_LANCZOS : image -> Z * Z -> exn + image;
  np_array : image -> exn + array;
  array_max : array -> exn + Z;
  array_min : array -> exn + Z;
  ssim : array -> array -> Z -> exn + pyfloat
}.

(** ** [calculate_ssim] (lines 30-47) *)

(** Sequencing of calls that may raise. *)
Definition and_then {X A B : Type} (c : X + A) (k : A -> X + B) : X + B :=
  match c with
  | inl e => inl e
  | inr a => k a
  end.

Notation "'try!' x <- c ; k" := (and_then c (fun x => k))
  (at level 61, x name, c at next level, right associativity).

Definition size_eqb (a b : Z * Z) : bool :=
  ((fst a =? fst b) && (snd a =? snd b))%bool.

(** [a - b] on two [numpy.uint8] scalars (an image in mode ['L'] is an array
    of bytes): the difference is a byte again. *)
Definition uint8_sub (a b : Z) : Z := (a - b) mod 256.

(** The body of the [try] block. *)
Definition ssim_attempt `{Environment} (w : World) (img1_path img2_path : string)
  : exn + pyfloat :=
  try! opened1 <- Image_open w img1_path ;
  try! img1 <- convert_L opened1 ;
  try! opened2 <- Image_open w img2_path ;
  try! img2 <- convert_L opened2 ;
  try! img2 <- (if negb (size_eqb (size img1) (size img2))
                then resize_LANCZOS img2 (size img1)
                else inr img2) ;
  try! img1_arr <- np_array img1 ;
  try! img2_arr <- np_array img2 ;
  try! hi <- array_max img2_arr ;
  try! lo <- array_min img2_arr ;
  ssim img1_arr img2_arr (uint8_sub hi lo).

(** [try: ... except Exception as e: print(...); return 0].  The result is
    the score together with what was printed. *)
Definition calculate_ssim `{Environment} (w : World) (img1_path img2_path : string)
  : pyfloat * list (event exn) :=
  match ssim_attempt w img1_path img2_path with
  | inr score => (score, [])
  | inl e => (float_zero, [PrintWarning e])
  end.

(** ** The state the script runs in *)

(** [calls] is the list of command lines handed to [subprocess.run] so far,
    oldest first; [stdout] is what has been printed. *)
Record state `{Environment} := {
  fs : World;
  calls : list (list string);
  stdout : list (event exn)
}.

Definition M `{Environment} (A : Type) : Type := state -> outcome A * state.

Definition ret `{Environment} {A : Type} (a : A) : M A := fun s => (Return a, s).

Definition bind `{Environment} {A B : Type} (c : M A) (k : A -> M B) : M B :=
  fun s =>
    match c s with
    | (Return a, s') => k a s'
    | (Raise e, s') => (Raise e, s')
    | (OutOfFuel, s') => (OutOfFuel, s')
    end.

Notation "x <- c ;; k" := (bind c (fun x => k))
  (at level 61, c at next level, right associativity).
Notation "c ;; k" := (bind c (fun _ => k))
  (at level 61, right associativity).

Definition out_of_fuel `{Environment} {A : Type} : M A := fun s => (OutOfFuel, s).

Definition print `{Environment} (evs : list (event exn)) : M unit :=
  fun s => (Return tt,
            {| fs := fs s; calls := calls s; stdout := stdout s ++ evs |}).

Definition read `{Environment} {A : Type} (f : World -> A) : M A :=
  fun s => (Return (f (fs s)), s).

Definition update `{Environment} (f : World -> World) : M unit :=
  fun s => (Return tt,
            {| fs := f (fs s); calls := calls s; stdout := stdout s |}).

(** [os.path.getsize(path)] *)
Definition os_path_getsize `{Environment} (path : string) : M Z :=
  fun s =>
    match getsize (fs s) path with
    | Some n => (Return n, s)
    | None => (Raise (OSError path), s)
    end.

(** [subprocess.run(cmd, capture_output=True, check=True)] *)
Definition subprocess_run_check `{Environment} (cmd : list string) : M unit :=
  fun s =>
    let (returncode, w') := run_process cmd (fs s) in
    let s' := {| fs := w'; calls := calls s ++ [cmd]; stdout := stdout s |} in
    if returncode =? 0 then (Return tt, s')
    else (Raise (CalledProcessError returncode cmd), s').

(** The call of [calculate_ssim] from the loop. *)
Definition call_calculate_ssim `{Environment} (img1_path img2_path : string)
  : M pyfloat :=
  fun s =>
    let (score, printed) := calculate_ssim (fs s) img1_path img2_path in
    (Return score,
     {| fs := fs s; calls := calls s; stdout := stdout s ++ printed |}).

(** ** The quality search (lines 74-97) *)

(** The [while] loop.  [fuel] bounds the number of iterations; the loop
    condition is tested first, so a loop that is over needs none. *)
Fixpoint while_search `{Environment} (cfg : config) (fuel : nat)
         (input_path temp_path : string) (st : SearchState) : M SearchState :=
  if looping st then
    match fuel with
    | O => out_of_fuel
    | S fuel' =>
        let quality := quality_of st in
        let cmd := search_cmd cfg quality input_path temp_path in
        subprocess_run_check cmd ;;
        current_ssim <- call_calculate_ssim input_path temp_path ;;
        print [PrintTest quality current_ssim] ;;
        while_search cfg fuel' input_path temp_path (decide cfg st current_ssim)
    end
  else ret st.

(** The number of qualities between [low] and [high]. *)
Definition width (st : SearchState) : nat :=
  Z.to_nat (high st - low st + 1).

(** Lines 75-97: the search for one image, returning [best_quality]. *)
Definition quality_search `{Environment} (cfg : config)
           (input_path temp_path : string) : M Z :=
  let st := initial_state cfg in
  final <- while_search cfg (width st) input_path temp_path st ;;
  ret (best_quality final).

(** ** One image (lines 67-120) *)

Definition input_path_of (cfg : config) (filename : string) : string :=
  path_join (SOURCE_FOLDER cfg) filename.

Definition output_path_of `{Environment} (cfg : config) (filename : string)
  : string :=
  path_join (OUTPUT_FOLDER cfg) (splitext_root filename ++ ".webp").

Definition temp_path_of (cfg : config) : string :=
  path_join (OUTPUT_FOLDER cfg) "temp.webp".

Definition process_image `{Environment} (cfg : config) (filename : string)
           (totals : Z * Z) : M (Z * Z) :=
  let (total_savings, image_count) := totals in
  let input_path := input_path_of cfg filename in
  let output_path := output_path_of cfg filename in
  let temp_path := temp_path_of cfg in
  print [PrintProcessing filename] ;;
  best <- quality_search cfg input_path temp_path ;;
  print [PrintNewline] ;;
  subprocess_run_check (final_cmd cfg best input_path output_path) ;;
  temp_there <- read (fun w => path_exists w temp_path) ;;
  (if temp_there : bool then update (remove temp_path) else ret tt) ;;
  original_size <- os_path_getsize input_path ;;
  optimized_size <- os_path_getsize output_path ;;
  let savings := original_size - optimized_size in
  print [PrintOptimal filename original_size output_path optimized_size;
         PrintBest best savings original_size] ;;
  ret (total_savings + savings, image_count + 1).

(** ** The batch (lines 49-128) *)

(** [for filename in os.listdir(SOURCE_FOLDER)] *)
Fixpoint for_each_file `{Environment} (cfg : config) (filenames : list string)
         (totals : Z * Z) : M (Z * Z) :=
  match filenames with
  | [] => ret totals
  | filename :: rest =>
      if negb (is_image_name filename) then for_each_file cfg rest totals
      else
        totals' <- process_image cfg filename totals ;;
        for_each_file cfg rest totals'
  end.

Definition is_tool_installed `{Environment} (w : World) (name : string) : bool :=
  match which w name with
  | Some _ => true
  | None => false
  end.

Definition auto_optimize_images `{Environment} (cfg : config) : M unit :=
  installed <- read (fun w => is_tool_installed w "cwebp") ;;
  if negb installed then print [PrintToolMissing]
  else
    print [PrintToolFound (TARGET_SSIM cfg)] ;;
    out_there <- read (fun w => path_exists w (OUTPUT_FOLDER cfg)) ;;
    (if negb out_there then update (makedirs (OUTPUT_FOLDER cfg)) else ret tt) ;;
    filenames <- read (fun w => listdir w (SOURCE_FOLDER cfg)) ;;
    totals <- for_each_file cfg filenames (0, 0) ;;
    let (total_savings, image_count) := totals : Z * Z in
    if image_count >? 0 then print [PrintSummary image_count total_savings]
    else print [PrintNoImages].

(** ** The search as a function of the scores it sees *)

(** The loop's control flow depends on the outside world only through the
    score measured in each iteration.  Given those scores, in order, these
    functions replay the local variables. *)

(** The state after the iterations that measured [scores]. *)
Fixpoint replay (cfg : config) (st : SearchState) (scores : list pyfloat)
  : SearchState :=
  match scores with
  | [] => st
  | score :: rest => replay cfg (decide cfg st score) rest
  end.

(** The state at the head of each of those iterations. *)
Fixpoint trajectory (cfg : config) (st : SearchState) (scores : list pyfloat)
  : list SearchState :=
  match scores with
  | [] => []
  | score :: rest => st :: trajectory cfg (decide cfg st score) rest
  end.

(** The quality encoded in each of those iterations. *)
Definition tested (cfg : config) (st : SearchState) (scores : list pyfloat)
  : list Z :=
  map quality_of (trajectory cfg st scores).

(** Every one of those iterations was entered with [low <= high]. *)
Definition entered (cfg : config) (st : SearchState) (scores : list pyfloat)
  : Prop :=
  Forall (fun st' => looping st' = true) (trajectory cfg st scores).

(** The successive values of [best_quality]: the initial one, then the value
    after each iteration. *)
Fixpoint best_history (cfg : config) (st : SearchState) (scores : list pyfloat)
  : list Z :=
  best_quality st ::
  match scores with
  | [] => []
  | score :: rest => best_history cfg (decide cfg st score) rest
  end.

(** [q] is the least quality of [[lo, hi]] that [ok] accepts. *)
Definition least_accepted (ok : Z -> bool) (lo hi q : Z) : Prop :=
  lo <= q <= hi /\ ok q = true /\ forall q', lo <= q' < q -> ok q' = false.

(** A similarity oracle that never decreases when the quality grows. *)
Definition monotone (sim : Z -> pyfloat) : Prop :=
  forall q1 q2, q1 <= q2 -> SFleb (sim q1) (sim q2) = true.

(** The [(quality, score)] pairs that the loop printed (line 89). *)
Definition test_events {X : Type} (out : list (event X)) : list (Z * pyfloat) :=
  flat_map (fun ev => match ev with
                      | PrintTest q score => [(q, score)]
                      | _ => []
                      end) out.

(** [score] is what [calculate_ssim] can return once the encoder, started
    on the search command line for [q], has exited with status 0. *)
Definition measured `{Environment} (cfg : config) (input_path temp_path : string)
           (q : Z) (score : pyfloat) : Prop :=
  exists w,
    fst (run_process (search_cmd cfg q input_path temp_path) w) = 0 /\
    fst (calculate_ssim
           (snd (run_process (search_cmd cfg q input_path temp_path) w))
           input_path temp_path) = score.

(** What a run of the loop from [st] in state [s] did, if the scores it
    measured were [scores]: every iteration was entered with [low <= high],
    ran the encoder on the search command line and printed the score; and
    the loop either ended with the replayed state, or stopped at the first
    encoder call that failed. *)
Definition search_run `{Environment} (cfg : config) (input_path temp_path : string)
           (st : SearchState) (s : state) (scores : list pyfloat)
           (out : outcome SearchState) (s' : state) : Prop :=
  let qs := tested cfg st scores in
  let final := replay cfg st scores in
  let cmd := fun q => search_cmd cfg q input_path temp_path in
  entered cfg st scores /\
  Forall2 (measured cfg input_path temp_path) qs scores /\
  test_events (stdout s') = test_events (stdout s) ++ combine qs scores /\
  match out with
  | Return st' =>
      st' = final /\ looping final = false /\
      calls s' = calls s ++ map cmd qs
  | Raise e =>
      looping final = true /\
      (exists rc w, rc <> 0 /\
                    fst (run_process (cmd (quality_of final)) w) = rc /\
                    e = CalledProcessError rc (cmd (quality_of final))) /\
      calls s' = calls s ++ map cmd qs ++ [cmd (quality_of final)]
  | OutOfFuel => False
  end.

(** What [quality_search] makes of the loop's outcome. *)
Definition best_of (out : outcome SearchState) : outcome Z :=
  match out with
  | Return st => Return (best_quality st)
  | Raise e => Raise e
  | OutOfFuel => OutOfFuel
  end.

(** The state in which [process_image] starts the search: the file name
    has been printed. *)
Definition announced `{Environment} (filename : string) (s : state) : state :=
  {| fs := fs s; calls := calls s;
     stdout := stdout s ++ [PrintProcessing filename] |}.

(** What lines 109-113 make of the two sizes: the new totals, or the
    [OSError] of the first [os.path.getsize] that raised. *)
Definition accounted (totals : Z * Z) (input_path output_path : string)
           (original_size optimized_size : option Z) : outcome (Z * Z) :=
  match original_size, optimized_size with
  | Some a, Some b => Return (fst totals + (a - b), snd totals + 1)
  | None, _ => Raise (OSError input_path)
  | Some _, None => Raise (OSError output_path)
  end.

(** The state in which [auto_optimize_images] enters its [for] loop: the
    banner has been printed and the output folder exists. *)
Definition set_up `{Environment} (cfg : config) (s : state) : state :=
  {| fs := if path_exists (fs s) (OUTPUT_FOLDER cfg) then fs s
           else makedirs (OUTPUT_FOLDER cfg) (fs s);
     calls := calls s;
     stdout := stdout s ++ [PrintToolFound (TARGET_SSIM cfg)] |}.

(** Whether the score that the oracle [sim] gives at quality [q] meets the
    target. *)
Definition accepts (cfg : config) (sim : Z -> pyfloat) (q : Z) : bool :=
  good_enough cfg (sim q).

(** The scores measured are the ones the oracle [sim] gives at the tested
    qualities. *)
Definition scored_by (cfg : config) (sim : Z -> pyfloat) (st : SearchState)
           (scores : list pyfloat) : Prop :=
  Forall2 (fun q score => score = sim q) (tested cfg st scores) scores.

(** The invariant of the binary search over [[lo, hi]]: the qualities left
    of [low] are rejected, and [best_quality] is either still the fallback
    [hi] or the accepted quality just right of [high]. *)
Definition search_inv (ok : Z -> bool) (lo hi : Z) (st : SearchState) : Prop :=
  lo <= low st /\ high st <= hi /\ low st <= high st + 1 /\
  (forall q, lo <= q < low st -> ok q = false) /\
  ((high st = hi /\ best_quality st = hi) \/
   (best_quality st = high st + 1 /\ best_quality st <= hi /\
    ok (best_quality st) = true)).

(** [best_quality] follows [high]: it is one more than [high] as soon as it
    has been assigned, and the fallback [hi] before. *)
Definition best_follows_high (hi : Z) (st : SearchState) : Prop :=
  (high st = hi /\ best_quality st = hi) \/ best_quality st = high st + 1.

(** ** What one evaluation does (lines 34-44) *)

(** [Image.open(path).convert('L')] gave [img]. *)
Definition loaded `{Environment} (w : World) (path : string) (img : image) : Prop :=
  exists opened, Image_open w path = inr opened /\ convert_L opened = inr img.

(** The candidate after lines 38-39: itself when it has the size of the
    original, and resized to that size otherwise. *)
Definition fitted `{Environment} (img1 img2 img2' : image) : Prop :=
  (size img1 = size img2 /\ img2' = img2) \/
  (size img1 <> size img2 /\ resize_LANCZOS img2 (size img1) = inr img2').

(** A step of the [try] block raised [e], the steps before it having
    returned: one constructor for each call of lines 34-44, in the order in
    which Python makes them. *)
Inductive raised `{Environment} (w : World) (img1_path img2_path : string)
  : exn -> Prop :=
| raised_open1 e :
    Image_open w img1_path = inl e ->
    raised w img1_path img2_path e
| raised_convert1 opened1 e :
    Image_open w img1_path = inr opened1 ->
    convert_L opened1 = inl e ->
    raised w img1_path img2_path e
| raised_open2 img1 e :
    loaded w img1_path img1 ->
    Image_open w img2_path = inl e ->
    raised w img1_path img2_path e
| raised_convert2 img1 opened2 e :
    loaded w img1_path img1 ->
    Image_open w img2_path = inr opened2 ->
    convert_L opened2 = inl e ->
    raised w img1_path img2_path e
| raised_resize img1 img2 e :
    loaded w img1_path img1 ->
    loaded w img2_path img2 ->
    size img1 <> size img2 ->
    resize_LANCZOS img2 (size img1) = inl e ->
    raised w img1_path img2_path e
| raised_array1 img1 img2 img2' e :
    loaded w img1_path img1 ->
    loaded w img2_path img2 ->
    fitted img1 img2 img2' ->
    np_array img1 = inl e ->
    raised w img1_path img2_path e
| raised_array2 img1 img2 img2' img1_arr e :
    loaded w img1_path img1 ->
    loaded w img2_path img2 ->
    fitted img1 img2 img2' ->
    np_array img1 = inr img1_arr ->
    np_array img2' = inl e ->
    raised w img1_path img2_path e
| raised_max img1 img2 img2' img1_arr img2_arr e :
    loaded w img1_path img1 ->
    loaded w img2_path img2 ->
    fitted img1 img2 img2' ->
    np_array img1 = inr img1_arr ->
    np_array img2' = inr img2_arr ->
    array_max img2_arr = inl e ->
    raised w img1_path img2_path e
| raised_min img1 img2 img2' img1_arr img2_arr hi e :
    loaded w img1_path img1 ->
    loaded w img2_path img2 ->
    fitted img1 img2 img2' ->
    np_array img1 = inr img1_arr ->
    np_array img2' = inr img2_arr ->
    array_max img2_arr = inr hi ->
    array_min img2_arr = inl e ->
    raised w img1_path img2_path e
| raised_ssim img1 img2 img2' img1_arr img2_arr hi lo e :
    loaded w img1_path img1 ->
    loaded w img2_path img2 ->
    fitted img1 img2 img2' ->
    np_array img1 = inr img1_arr ->
    np_array img2' = inr img2_arr ->
    array_max img2_arr = inr hi ->
    array_min img2_arr = inr lo ->
    ssim img1_arr img2_arr (uint8_sub hi lo) = inl e ->
    raised w img1_path img2_path e.

(** No step raised, and the library's [structural_similarity] returned
    [score] for the grey levels of the original and of the fitted
    candidate, with the candidate's [max - min] as data range. *)
Definition evaluated `{Environment} (w : World) (img1_path img2_path : string)
           (score : pyfloat) : Prop :=
  exists img1 img2 img2' img1_arr img2_arr hi lo,
    loaded w img1_path img1 /\
    loaded w img2_path img2 /\
    fitted img1 img2 img2' /\
    np_array img1 = inr img1_arr /\
    np_array img2' = inr img2_arr /\
    array_max img2_arr = inr hi /\
    array_min img2_arr = inr lo /\
    ssim img1_arr img2_arr (uint8_sub hi lo) = inr score.



(** The binary64 value of the literal [0.999]:
    8998192055486251 * 2^-53. *)
Definition float_0_999 : pyfloat := S754_finite false 8998192055486251 (-53).

(** ** A small concrete world *)

(** A file system that remembers, for every file the encoder wrote, the
    quality it was written at, and an SSIM that depends on that quality
    only.  Used to run the script on examples. *)
Module Demo.

Inductive demo_exn :=
| FileNotFoundError (path : string).

Definition world := list (string * Z).

Fixpoint lookup (path : string) (w : world) : option Z :=
  match w with
  | [] => None
  | (p, q) :: rest => if String.eqb p path then Some q else lookup path rest
  end.

(** The number after [-q] and the path after [-o] on a [cwebp] command
    line. *)
Definition quality_arg (cmd : list string) : Z :=
  match NilZero.int_of_string (nth 2 cmd "") with
  | Some d => Z.of_int d
  | None => 0
  end.

Definition output_arg (cmd : list string) : string := last cmd "".

Definition demo_run (exit_code : list string -> Z) (cmd : list string) (w : world)
  : Z * world :=
  if exit_code cmd =? 0 then (0, (output_arg cmd, quality_arg cmd) :: w)
  else (exit_code cmd, w).

(** A file that was never encoded is an original; it reads as quality 100. *)
Definition demo_open (unreadable : string -> bool) (w : world) (path : string)
  : demo_exn + Z :=
  if unreadable path then inl (FileNotFoundError path)
  else inr (match lookup path w with Some q => q | None => 100 end).

(** The size of an encoded file is its quality; an original has size 100.
    A [.webp] file is there only once the encoder has written it. *)
Definition demo_getsize (w : world) (path : string) : option Z :=
  match lookup path w with
  | Some q => Some q
  | None => if endswith path ".webp" then None else Some 100
  end.

Definition demo_remove (path : string) (w : world) : world :=
  filter (fun entry => negb (String.eqb (fst entry) path)) w.

(** Everything before the last dot. *)
Fixpoint demo_root (s : string) : string :=
  match s with
  | EmptyString => EmptyString
  | String c rest =>
      if existsb (Ascii.eqb ".") (list_ascii_of_string rest)
      then String c (demo_root rest)
      else if Ascii.eqb c "." then EmptyString else String c (demo_root rest)
  end.

#[local] Instance env (listing : list string) (exit_code : list string -> Z)
  (unreadable : string -> bool) (sim : Z -> pyfloat) : Environment := {|
  World := world;
  which := fun _ name => Some (String.append "/usr/bin/" name);
  path_exists := fun w p => match lookup p w with Some _ => true | None => false end;
  makedirs := fun _ w => w;
  listdir := fun _ _ => listing;
  remove := demo_remove;
  getsize := demo_getsize;
  splitext_root := demo_root;
  run_process := demo_run exit_code;
  exn := demo_exn;
  image := Z;
  array := Z;
  Image_open := demo_open unreadable;
  convert_L := fun img => inr img;
  size := fun _ => (1, 1);
  resize_LANCZOS := fun img _ => inr img;
  np_array := fun img => inr img;
  array_max := fun _ => inr 255;
  array_min := fun _ => inr 0;
  ssim := fun _ candidate _ => inr (sim candidate)
|}.

Definition start `{Environment} (w : World) : state :=
  {| fs := w; calls := []; stdout := [] |}.

(** The binary64 values of the literals [0.97] and [0.99]. *)
Definition float_0_97 : pyfloat := S754_finite false 8736983277098762 (-53).
Definition float_0_99 : pyfloat := S754_finite false 8917127262193582 (-53).

(** An SSIM of 0.97 below quality [threshold] and of 0.99 from there on. *)
Definition step_at (threshold : Z) (q : Z) : pyfloat :=
  if q <? threshold then float_0_97 else float_0_99.

(** The same score at every quality. *)
Definition flat (score : pyfloat) (q : Z) : pyfloat := score.

(** An encoder that always works, and one that exits with status 1 whenever
    [input_path] is on its command line. *)
Definition always_ok (cmd : list string) : Z := 0.

Definition fails_on (input_path : string) (cmd : list string) : Z :=
  if existsb (String.eqb input_path) cmd then 1 else 0.

(** The files that cannot be read: none, or [bad] alone. *)
Definition no_file (path : string) : bool := false.

Definition only (bad path : string) : bool := String.eqb bad path.

(** A world in which the encoder works, every file is readable and the
    SSIM at quality [q] is [sim q]. *)
Definition scoring (sim : Z -> pyfloat) : Environment :=
  env [] always_ok no_file sim.

End Demo.

(** ** A world of single-colour images *)

(** Grey images of one colour, to run [calculate_ssim] on degenerate and on
    tiny images.  Every array of this world has [max = min], so the data
    range that reaches [ssim] is 0.  [ssim] does here what scikit-image's
    [structural_similarity] does on such inputs: it raises [ValueError]
    for an image with a side below its 7x7 window, and otherwise computes
    0/0 in every window and returns NaN. *)
Module Flat.

Record picture := {
  width : Z;
  height : Z;
  grey : Z
}.

Inductive flat_exn :=
| FileNotFoundError (path : string)
| ValueError (message : string).

Definition world := list (string * picture).

Fixpoint lookup (path : string) (w : world) : option picture :=
  match w with
  | [] => None
  | (p, pic) :: rest => if String.eqb p path then Some pic else lookup path rest
  end.

Definition flat_open (w : world) (path : string) : flat_exn + picture :=
  match lookup path w with
  | Some pic => inr pic
  | None => inl (FileNotFoundError path)
  end.

Definition flat_resize (pic : picture) (new_size : Z * Z) : flat_exn + picture :=
  inr {| width := fst new_size; height := snd new_size; grey := grey pic |}.

Definition flat_ssim (a b : picture) (data_range : Z) : flat_exn + pyfloat :=
  if ((width a <? 7) || (height a <? 7))%bool
  then inl (ValueError "win_size exceeds image extent")
  else inr S754_nan.

#[local] Instance env : Environment := {|
  World := world;
  which := fun _ name => Some (String.append "/usr/bin/" name);
  path_exists := fun w p => match lookup p w with Some _ => true | None => false end;
  makedirs := fun _ w => w;
  listdir := fun _ _ => [];
  remove := fun p w => filter (fun entry => negb (String.eqb (fst entry) p)) w;
  getsize := fun w p => match lookup p w with
                        | Some pic => Some (width pic * height pic)
                        | None => None
                        end;
  splitext_root := Demo.demo_root;
  run_process := fun _ w => (0, w);
  exn := flat_exn;
  image := picture;
  array := picture;
  Image_open := flat_open;
  convert_L := fun img => inr img;
  size := fun img => (width img, height img);
  resize_LANCZOS := flat_resize;
  np_array := fun img => inr img;
  array_max := fun arr => inr (grey arr);
  array_min := fun arr => inr (grey arr);
  ssim := flat_ssim
|}.

(** Two copies of an 8x8 image of grey level 128, and two copies of a 3x3
    one. *)
Definition square (side : Z) : picture :=
  {| width := side; height := side; grey := 128 |}.

Definition files : world :=
  [("images/grey.png", square 8); ("optimized_images/temp.webp", square 8);
   ("images/tiny.png", square 3); ("images/tiny_copy.png", square 3);
   ("images/grey_copy.png", square 8)].

End Flat.

(** * Further notions *)

(** The tested qualities whose score met the target, in the order they were
    tested. *)
Definition accepted_tests (cfg : config) (tests : list (Z * pyfloat)) : list Z :=
  map fst (filter (fun t => good_enough cfg (snd t)) tests).

(** How a later test relates to an earlier one: below it when the earlier
    score met the target, above it otherwise. *)
Definition moves_away (cfg : config) (earlier later : Z * pyfloat) : Prop :=
  if good_enough cfg (snd earlier) then fst later < fst earlier
  else fst earlier < fst later.

(** ** More concrete worlds *)

Module Cases.

(** A configuration whose quality range is empty. *)
Definition inverted_config : config := {|
  SOURCE_FOLDER := "images";
  OUTPUT_FOLDER := "optimized_images";
  TARGET_SSIM := float_0_98;
  MIN_QUALITY := 95;
  MAX_QUALITY := 40;
  WEBP_METHOD := 6
|}.

(** The world of [Demo.scoring], without [cwebp] on the path. *)
Definition without_cwebp : Environment := {|
  World := Demo.world;
  which := fun _ _ => None;
  path_exists := fun w p => match Demo.lookup p w with Some _ => true | None => false end;
  makedirs := fun _ w => w;
  listdir := fun _ _ => ["a.png"];
  remove := Demo.demo_remove;
  getsize := Demo.demo_getsize;
  splitext_root := Demo.demo_root;
  run_process := Demo.demo_run Demo.always_ok;
  exn := Demo.demo_exn;
  image := Z;
  array := Z;
  Image_open := Demo.demo_open Demo.no_file;
  convert_L := fun img => inr img;
  size := fun _ => (1, 1);
  resize_LANCZOS := fun img _ => inr img;
  np_array := fun img => inr img;
  array_max := fun _ => inr 255;
  array_min := fun _ => inr 0;
  ssim := fun _ candidate _ => inr (Demo.step_at 55 candidate)
|}.

(** A folder with two images and a text file, and one without images. *)
Definition mixed_folder : list string := ["a.png"; "notes.txt"; "b.JPG"].

Definition folder_of_notes : list string := ["notes.txt"; "a.webp"].

(** A world with the given listing, a working encoder, readable files and
    an SSIM that reaches the target at quality 55. *)
Definition listing (filenames : list string) : Environment :=
  Demo.env filenames Demo.always_ok Demo.no_file (Demo.step_at 55).

(** The same, with one file that cannot be read. *)
Definition unreadable (path : string) : Environment :=
  Demo.env [] Demo.always_ok (Demo.only path) (Demo.step_at 55).

End Cases.

(** * Properties *)

Section Properties.

Context `{Environment}.
Variable cfg : config.

(** ** One iteration *)

Lemma looping_spec (st : SearchState) :
  looping st = true <-> low st <= high st.
Proof. unfold looping. apply Z.leb_le. Qed.

Lemma not_looping_spec (st : SearchState) :
  looping st = false <-> high st < low st.
Proof. unfold looping. rewrite Z.leb_gt. reflexivity. Qed.

Lemma quality_between (st : SearchState) :
  low st <= high st -> low st <= quality_of st <= high st.
Proof.
  intros Hle. unfold quality_of.
  split.
  - apply Z.div_le_lower_bound; lia.
  - apply Z.div_le_upper_bound; lia.
Qed.

Lemma decide_good (st : SearchState) (score : pyfloat) :
  good_enough cfg score = true ->
  decide cfg st score =
  {| low := low st; high := quality_of st - 1; best_quality := quality_of st |}.
Proof. intros Hg. unfold decide. rewrite Hg. reflexivity. Qed.

Lemma decide_bad (st : SearchState) (score : pyfloat) :
  good_enough cfg score = false ->
  decide cfg st score =
  {| low := quality_of st + 1; high := high st; best_quality := best_quality st |}.
Proof. intros Hg. unfold decide. rewrite Hg. reflexivity. Qed.

(** Each iteration at least halves the interval that is left. *)
Lemma decide_halves (st : SearchState) (score : pyfloat) :
  low st <= high st ->
  let st' := decide cfg st score in
  0 <= high st' - low st' + 1 /\
  2 * (high st' - low st' + 1) <= high st - low st + 1.
Proof.
  intros Hle. pose proof (quality_between st Hle) as Hq.
  assert (Hm : 2 * quality_of st <= low st + high st < 2 * quality_of st + 2).
  { unfold quality_of.
    pose proof (Z.div_mod (low st + high st) 2 ltac:(lia)) as Hd.
    pose proof (Z.mod_pos_bound (low st + high st) 2 ltac:(lia)). lia. }
  cbv zeta. unfold decide.
  destruct (good_enough cfg score); cbn [low high]; lia.
Qed.

Lemma decide_width (st : SearchState) (score : pyfloat) :
  looping st = true ->
  (width (decide cfg st score) < width st)%nat.
Proof.
  intros Hl. apply looping_spec in Hl.
  destruct (decide_halves st score Hl) as [H0 H2].
  unfold width. lia.
Qed.

(** ** The loop and its replay *)

Lemma test_events_app {X : Type} (a b : list (event X)) :
  test_events (a ++ b) = test_events a ++ test_events b.
Proof. unfold test_events. apply flat_map_app. Qed.

Lemma calculate_ssim_prints_no_test (w : World) (p1 p2 : string) :
  test_events (snd (calculate_ssim w p1 p2)) = [].
Proof.
  unfold calculate_ssim. destruct (ssim_attempt w p1 p2); reflexivity.
Qed.

(** Running a sequence: the three ways the first part can end. *)
Lemma bind_Return {A B : Type} (c : M A) (k : A -> M B) (s s' : state) (a : A) :
  c s = (Return a, s') -> bind c k s = k a s'.
Proof. intros Hc. unfold bind. rewrite Hc. reflexivity. Qed.

Lemma bind_Raise {A B : Type} (c : M A) (k : A -> M B) (s s' : state) (e : exception) :
  c s = (Raise e, s') -> bind c k s = (Raise e, s').
Proof. intros Hc. unfold bind. rewrite Hc. reflexivity. Qed.

Lemma bind_OutOfFuel {A B : Type} (c : M A) (k : A -> M B) (s s' : state) :
  c s = (OutOfFuel, s') -> bind c k s = (OutOfFuel, s').
Proof. intros Hc. unfold bind. rewrite Hc. reflexivity. Qed.

(** The encoder call: status 0 goes on, any other status raises. *)
Lemma subprocess_run_check_ok (cmd : list string) (s : state) (w' : World) :
  run_process cmd (fs s) = (0, w') ->
  subprocess_run_check cmd s =
  (Return tt, {| fs := w'; calls := calls s ++ [cmd]; stdout := stdout s |}).
Proof. intros Hrun. unfold subprocess_run_check. rewrite Hrun. reflexivity. Qed.

Lemma subprocess_run_check_fails (cmd : list string) (s : state) (rc : Z) (w' : World) :
  run_process cmd (fs s) = (rc, w') -> rc <> 0 ->
  subprocess_run_check cmd s =
  (Raise (CalledProcessError rc cmd),
   {| fs := w'; calls := calls s ++ [cmd]; stdout := stdout s |}).
Proof.
  intros Hrun Hrc. unfold subprocess_run_check. rewrite Hrun.
  apply Z.eqb_neq in Hrc. rewrite Hrc. reflexivity.
Qed.

(** One pass through the loop body when the encoder succeeds. *)
Lemma while_search_step (fuel : nat) (input_path temp_path : string)
      (st : SearchState) (s : state) (w' : World) :
  looping st = true ->
  run_process (search_cmd cfg (quality_of st) input_path temp_path) (fs s) = (0, w') ->
  let score := fst (calculate_ssim w' input_path temp_path) in
  let printed := snd (calculate_ssim w' input_path temp_path) in
  while_search cfg (S fuel) input_path temp_path st s =
  while_search cfg fuel input_path temp_path (decide cfg st score)
    {| fs := w';
       calls := calls s ++ [search_cmd cfg (quality_of st) input_path temp_path];
       stdout := (stdout s ++ printed) ++ [PrintTest (quality_of st) score] |}.
Proof.
  intros Hl Hrun score printed. cbn [while_search]. rewrite Hl.
  erewrite bind_Return by (apply subprocess_run_check_ok; exact Hrun).
  erewrite bind_Return.
  2:{ unfold call_calculate_ssim. cbn [fs calls stdout].
      rewrite (surjective_pairing (calculate_ssim w' input_path temp_path)).
      reflexivity. }
  erewrite bind_Return by reflexivity.
  reflexivity.
Qed.

(** One pass through the loop body when the encoder fails. *)
Lemma while_search_fails (fuel : nat) (input_path temp_path : string)
      (st : SearchState) (s : state) (rc : Z) (w' : World) :
  looping st = true ->
  run_process (search_cmd cfg (quality_of st) input_path temp_path) (fs s) = (rc, w') ->
  rc <> 0 ->
  while_search cfg (S fuel) input_path temp_path st s =
  (Raise (CalledProcessError rc (search_cmd cfg (quality_of st) input_path temp_path)),
   {| fs := w';
      calls := calls s ++ [search_cmd cfg (quality_of st) input_path temp_path];
      stdout := stdout s |}).
Proof.
  intros Hl Hrun Hrc. cbn [while_search]. rewrite Hl.
  erewrite bind_Raise by (apply subprocess_run_check_fails; eassumption).
  reflexivity.
Qed.

Lemma while_search_done (fuel : nat) (input_path temp_path : string)
      (st : SearchState) (s : state) :
  looping st = false ->
  while_search cfg fuel input_path temp_path st s = (Return st, s).
Proof. intros Hl. destruct fuel; cbn [while_search]; rewrite Hl; reflexivity. Qed.

(** The loop always comes to an end when it is given [width st] units of
    fuel, and what it did is a [search_run]. *)
Lemma while_search_run (input_path temp_path : string) :
  forall (fuel : nat) (st : SearchState) (s : state),
    (width st <= fuel)%nat ->
    exists scores,
      search_run cfg input_path temp_path st s scores
        (fst (while_search cfg fuel input_path temp_path st s))
        (snd (while_search cfg fuel input_path temp_path st s)).
Proof.
  induction fuel as [|fuel IH]; intros st s Hfuel;
    destruct (looping st) eqn:Hl.
  - apply looping_spec in Hl. unfold width in Hfuel. lia.
  - exists []. rewrite while_search_done by exact Hl.
    unfold search_run. cbn. rewrite Hl, !app_nil_r. repeat split; constructor.
  - set (cmd := search_cmd cfg (quality_of st) input_path temp_path).
    destruct (run_process cmd (fs s)) as [rc w'] eqn:Hrun.
    destruct (Z.eq_dec rc 0) as [->|Hrc].
    + rewrite (while_search_step fuel _ _ st s w' Hl Hrun).
      set (score := fst (calculate_ssim w' input_path temp_path)).
      set (printed := snd (calculate_ssim w' input_path temp_path)).
      match goal with
      | |- context [while_search cfg fuel _ _ _ ?s2] => set (after := s2)
      end.
      destruct (IH (decide cfg st score) after) as [scores Hrec].
      { pose proof (decide_width st score Hl). lia. }
      exists (score :: scores).
      unfold search_run in *. cbn [tested trajectory map replay combine] in *.
      destruct Hrec as (Htraj & Hmeas & Hev & Hout).
      split; [constructor; assumption|].
      split.
      { constructor; [|exact Hmeas].
        exists (fs s). fold cmd. rewrite Hrun. split; reflexivity. }
      split.
      { rewrite Hev. unfold after. cbn [stdout].
        rewrite !test_events_app. unfold printed.
        rewrite calculate_ssim_prints_no_test. cbn.
        rewrite app_nil_r, <- app_assoc. reflexivity. }
      destruct (fst (while_search cfg fuel input_path temp_path
                       (decide cfg st score) after)).
      * destruct Hout as (-> & Hend & Hcalls). repeat split; auto.
        rewrite Hcalls. unfold after. cbn [calls].
        rewrite <- app_assoc. reflexivity.
      * destruct Hout as (Hend & Hfail & Hcalls). repeat split; auto.
        rewrite Hcalls. unfold after. cbn [calls].
        rewrite <- app_assoc. reflexivity.
      * contradiction.
    + exists []. rewrite (while_search_fails fuel _ _ st s rc w' Hl Hrun Hrc).
      unfold search_run. cbn. rewrite Hl, app_nil_r.
      repeat split; try constructor.
      exists rc, (fs s). fold cmd. rewrite Hrun. repeat split. exact Hrc.
  - exists []. rewrite while_search_done by exact Hl.
    unfold search_run. cbn. rewrite Hl, !app_nil_r. repeat split; constructor.
Qed.

(** ** What holds along every trajectory *)

Lemma entered_cons (score : pyfloat) (scores : list pyfloat) (st : SearchState) :
  entered cfg st (score :: scores) ->
  low st <= high st /\ entered cfg (decide cfg st score) scores.
Proof.
  unfold entered. cbn [trajectory].
  intros Hall. inversion Hall as [|? ? Hl Hrest]; subst.
  split; [apply looping_spec; exact Hl | exact Hrest].
Qed.

(** The bounds only move towards each other, and the tested quality lies
    between them. *)
Lemma trajectory_in_range (lo hi : Z) :
  forall (scores : list pyfloat) (st : SearchState),
    lo <= low st -> high st <= hi ->
    entered cfg st scores ->
    Forall (fun st' => lo <= low st' /\ low st' <= quality_of st' <= high st' /\
                       high st' <= hi)
           (trajectory cfg st scores) /\
    lo <= low (replay cfg st scores) /\ high (replay cfg st scores) <= hi.
Proof.
  induction scores as [|score scores IH]; intros st Hlo Hhi Hent.
  - cbn. repeat split; auto.
  - apply entered_cons in Hent. destruct Hent as [Hle Hent].
    pose proof (quality_between st Hle) as Hq.
    destruct (IH (decide cfg st score)) as (Hall & Hl & Hh); auto.
    + unfold decide. destruct (good_enough cfg score); cbn [low]; lia.
    + unfold decide. destruct (good_enough cfg score); cbn [high]; lia.
    + cbn [trajectory replay]. repeat split; auto.
Qed.

(** [best_quality] is either untouched or one of the tested qualities. *)
Lemma replay_best :
  forall (scores : list pyfloat) (st : SearchState),
    best_quality (replay cfg st scores) = best_quality st \/
    In (best_quality (replay cfg st scores)) (tested cfg st scores).
Proof.
  induction scores as [|score scores IH]; intros st; [left; reflexivity|].
  cbn [replay tested trajectory map].
  destruct (IH (decide cfg st score)) as [Heq|Hin].
  - rewrite Heq. unfold decide.
    destruct (good_enough cfg score); cbn [best_quality]; auto.
    right. left. reflexivity.
  - right. right. exact Hin.
Qed.

(** ** Counting the iterations *)

Lemma trajectory_length (scores : list pyfloat) :
  forall st, List.length (trajectory cfg st scores) = List.length scores.
Proof. induction scores as [|score scores IH]; intros st; cbn; auto. Qed.

Lemma tested_length (scores : list pyfloat) (st : SearchState) :
  List.length (tested cfg st scores) = List.length scores.
Proof. unfold tested. rewrite length_map. apply trajectory_length. Qed.

(** An interval of fewer than [2^k] qualities is exhausted after [k]
    iterations. *)
Lemma iterations_below_power :
  forall (scores : list pyfloat) (st : SearchState) (k : Z),
    0 <= k ->
    entered cfg st scores ->
    high st - low st + 1 < 2 ^ k ->
    Z.of_nat (List.length scores) <= k.
Proof.
  induction scores as [|score scores IH]; intros st k Hk Hent Hsize.
  - cbn. lia.
  - apply entered_cons in Hent. destruct Hent as [Hle Hent].
    destruct (decide_halves st score Hle) as [H0 H2].
    assert (Hk1 : 1 <= k).
    { destruct (Z.eq_dec k 0) as [->|]; [cbn in Hsize; lia | lia]. }
    assert (Hpow : 2 ^ k = 2 * 2 ^ (k - 1)).
    { rewrite <- Z.pow_succ_r by lia. f_equal. lia. }
    specialize (IH (decide cfg st score) (k - 1) ltac:(lia) Hent ltac:(lia)).
    cbn [List.length]. lia.
Qed.

Lemma iterations_bound (scores : list pyfloat) (st : SearchState) :
  low st <= high st ->
  entered cfg st scores ->
  Z.of_nat (List.length scores) <= Z.log2_up (high st - low st + 1) + 1.
Proof.
  intros Hle Hent.
  pose proof (Z.log2_spec (high st - low st + 1) ltac:(lia)) as [_ Hup].
  pose proof (Z.log2_nonneg (high st - low st + 1)) as Hnn.
  pose proof (Z.le_log2_log2_up (high st - low st + 1)) as Hlu.
  pose proof (iterations_below_power scores st
                (Z.succ (Z.log2 (high st - low st + 1))) ltac:(lia) Hent Hup).
  lia.
Qed.

(** ** Comparing scores *)

Lemma SFleb_trans (a b c : spec_float) :
  SFleb a b = true -> SFleb b c = true -> SFleb a c = true.
Proof.
  unfold SFleb, SFcompare.
  destruct a as [sa|sa| |sa ma ea], b as [sb|sb| |sb mb eb], c as [sc|sc| |sc mc ec];
    try discriminate; try reflexivity;
    repeat match goal with sgn : bool |- _ => destruct sgn end;
    try discriminate; try reflexivity;
    change (Pos.compare_cont Eq) with Pos.compare;
    destruct (Z.compare_spec ea eb), (Z.compare_spec eb ec), (Z.compare_spec ea ec);
    try discriminate; try reflexivity; try lia; subst;
    destruct (Pos.compare_spec ma mb), (Pos.compare_spec mb mc), (Pos.compare_spec ma mc);
    cbn; try discriminate; try reflexivity; try lia.
Qed.

(** With a monotone oracle, a quality above an accepted one is accepted. *)
Lemma accepts_monotone (sim : Z -> pyfloat) (q1 q2 : Z) :
  monotone sim -> q1 <= q2 ->
  accepts cfg sim q1 = true -> accepts cfg sim q2 = true.
Proof.
  unfold accepts, good_enough, float_ge. intros Hmono Hle Hq1.
  eapply SFleb_trans; [exact Hq1 | apply Hmono; exact Hle].
Qed.

(** ** The binary search finds the least accepted quality *)

Lemma scored_by_cons (sim : Z -> pyfloat) (st : SearchState)
      (score : pyfloat) (scores : list pyfloat) :
  scored_by cfg sim st (score :: scores) ->
  score = sim (quality_of st) /\ scored_by cfg sim (decide cfg st score) scores.
Proof.
  unfold scored_by, tested. cbn [trajectory map].
  intros Hall. inversion Hall; subst. split; auto.
Qed.

Lemma search_inv_decide (sim : Z -> pyfloat) (lo hi : Z) (st : SearchState) :
  monotone sim ->
  low st <= high st ->
  search_inv (accepts cfg sim) lo hi st ->
  search_inv (accepts cfg sim) lo hi (decide cfg st (sim (quality_of st))).
Proof.
  intros Hmono Hle (Hlo & Hhi & Hgap & Hleft & Hbest).
  pose proof (quality_between st Hle) as Hq.
  destruct (good_enough cfg (sim (quality_of st))) eqn:Hgood.
  - rewrite decide_good by exact Hgood. unfold search_inv. cbn [low high best_quality].
    repeat split; try lia; auto.
    right. repeat split; [lia | lia | exact Hgood].
  - rewrite decide_bad by exact Hgood. unfold search_inv. cbn [low high best_quality].
    repeat split; try lia; auto.
    intros q Hqr.
    destruct (accepts cfg sim q) eqn:Hacc; [|reflexivity].
    assert (Hmid : accepts cfg sim (quality_of st) = true).
    { apply (accepts_monotone sim q); [exact Hmono | lia | exact Hacc]. }
    unfold accepts in Hmid. congruence.
Qed.

Lemma search_inv_replay (sim : Z -> pyfloat) (lo hi : Z) :
  monotone sim ->
  forall (scores : list pyfloat) (st : SearchState),
    entered cfg st scores ->
    scored_by cfg sim st scores ->
    search_inv (accepts cfg sim) lo hi st ->
    search_inv (accepts cfg sim) lo hi (replay cfg st scores).
Proof.
  intros Hmono. induction scores as [|score scores IH]; intros st Hent Hsc Hinv.
  - exact Hinv.
  - apply entered_cons in Hent. destruct Hent as [Hle Hent].
    apply scored_by_cons in Hsc. destruct Hsc as [-> Hsc].
    cbn [replay]. apply IH; auto.
    apply search_inv_decide; auto.
Qed.

Lemma search_inv_initial (ok : Z -> bool) :
  MIN_QUALITY cfg <= MAX_QUALITY cfg ->
  search_inv ok (MIN_QUALITY cfg) (MAX_QUALITY cfg) (initial_state cfg).
Proof.
  intros Hle. unfold search_inv, initial_state. cbn [low high best_quality].
  repeat split; lia.
Qed.

(** When the loop is over, the invariant says what [best_quality] is. *)
Lemma search_inv_final (ok : Z -> bool) (lo hi : Z) (st : SearchState) :
  search_inv ok lo hi st ->
  looping st = false ->
  (exists q, lo <= q <= hi /\ ok q = true) ->
  least_accepted ok lo hi (best_quality st).
Proof.
  intros (Hlo & Hhi & Hgap & Hleft & Hbest) Hend (q & Hq & Hok).
  apply not_looping_spec in Hend.
  destruct Hbest as [[Hh Hb] | (Hb & Hbhi & Hbok)].
  - rewrite Hleft in Hok by lia. discriminate.
  - unfold least_accepted. repeat split; try lia; auto.
    intros q' Hq'. apply Hleft. lia.
Qed.

(** ** When no score meets the target *)

Lemma replay_all_bad :
  forall (scores : list pyfloat) (st : SearchState),
    Forall (fun score => good_enough cfg score = false) scores ->
    best_quality (replay cfg st scores) = best_quality st.
Proof.
  induction scores as [|score scores IH]; intros st Hall; [reflexivity|].
  inversion Hall as [|? ? Hbad Hrest]; subst.
  cbn [replay]. rewrite IH by exact Hrest.
  rewrite decide_bad by exact Hbad. reflexivity.
Qed.

(** ** How [best_quality] moves *)

Lemma best_follows_high_decide (hi : Z) (st : SearchState) (score : pyfloat) :
  best_follows_high hi st -> best_follows_high hi (decide cfg st score).
Proof.
  unfold best_follows_high, decide. intros Hb.
  destruct (good_enough cfg score); cbn [high best_quality]; [right; lia | exact Hb].
Qed.

Lemma best_follows_high_trajectory (hi : Z) :
  forall (scores : list pyfloat) (st : SearchState),
    best_follows_high hi st ->
    Forall (best_follows_high hi) (trajectory cfg st scores).
Proof.
  induction scores as [|score scores IH]; intros st Hb; cbn [trajectory].
  - constructor.
  - constructor; [exact Hb|]. apply IH. apply best_follows_high_decide. exact Hb.
Qed.

(** One iteration: a score below the target leaves [best_quality] alone; a
    score that meets it stores the tested quality, which is below the old
    value unless the old value is still the fallback [hi] and the tested
    quality is [hi] itself. *)
Lemma decide_best (hi : Z) (st : SearchState) (score : pyfloat) :
  best_follows_high hi st ->
  low st <= high st ->
  (good_enough cfg score = false ->
   best_quality (decide cfg st score) = best_quality st) /\
  (good_enough cfg score = true ->
   best_quality (decide cfg st score) = quality_of st /\
   (quality_of st < best_quality st \/
    (quality_of st = hi /\ best_quality st = hi))).
Proof.
  intros Hb Hle. pose proof (quality_between st Hle) as Hq.
  split; intros Hg.
  - rewrite decide_bad by exact Hg. reflexivity.
  - rewrite decide_good by exact Hg. cbn [best_quality]. split; [reflexivity|].
    destruct Hb as [[Hh Hbq] | Hbq]; [|left; lia].
    destruct (Z.eq_dec (quality_of st) hi); [right; lia | left; lia].
Qed.

Lemma in_trajectory_scores (st' : SearchState) (score' : pyfloat) :
  forall (scores : list pyfloat) (st : SearchState),
    In (st', score') (combine (trajectory cfg st scores) scores) ->
    In st' (trajectory cfg st scores).
Proof. intros scores st Hin. eapply in_combine_l. exact Hin. Qed.

(** ** The search and the final pass for one image *)

Lemma quality_search_unfold (input_path temp_path : string) (s : state) :
  quality_search cfg input_path temp_path s =
  (best_of (fst (while_search cfg (width (initial_state cfg)) input_path temp_path
                   (initial_state cfg) s)),
   snd (while_search cfg (width (initial_state cfg)) input_path temp_path
          (initial_state cfg) s)).
Proof.
  unfold quality_search, bind, ret.
  destruct (while_search cfg (width (initial_state cfg)) input_path temp_path
              (initial_state cfg) s) as [[st|e|] s']; reflexivity.
Qed.

(** The search never runs out of fuel, and what it did is a [search_run]
    from the initial state. *)
Lemma quality_search_run (input_path temp_path : string) (s : state) :
  exists scores out,
    search_run cfg input_path temp_path (initial_state cfg) s scores out
      (snd (quality_search cfg input_path temp_path s)) /\
    fst (quality_search cfg input_path temp_path s) = best_of out.
Proof.
  destruct (while_search_run input_path temp_path (width (initial_state cfg))
              (initial_state cfg) s (le_n _)) as [scores Hrun].
  rewrite quality_search_unfold. cbn [fst snd].
  exists scores. eexists. split; [exact Hrun | reflexivity].
Qed.

Lemma trajectory_snoc (score : pyfloat) :
  forall (scores : list pyfloat) (st : SearchState),
    trajectory cfg st (scores ++ [score]) =
    trajectory cfg st scores ++ [replay cfg st scores].
Proof.
  induction scores as [|score' scores IH]; intros st; cbn; [reflexivity|].
  rewrite IH. reflexivity.
Qed.

(** The iteration in which the encoder failed was entered as well. *)
Lemma entered_snoc (score : pyfloat) (scores : list pyfloat) (st : SearchState) :
  entered cfg st scores ->
  looping (replay cfg st scores) = true ->
  entered cfg st (scores ++ [score]).
Proof.
  unfold entered. intros Hent Hl. rewrite trajectory_snoc.
  apply Forall_app. split; [exact Hent|]. constructor; [exact Hl | constructor].
Qed.

(** The encoder calls of [process_image]: the search calls, in order, and
    then either the final call or, when the search was cut short, the
    search call that failed. *)
Lemma process_image_calls (filename : string) (totals : Z * Z) (s : state) :
  let input_path := input_path_of cfg filename in
  let temp_path := temp_path_of cfg in
  let output_path := output_path_of cfg filename in
  let r := process_image cfg filename totals s in
  exists scores out s1,
    search_run cfg input_path temp_path (initial_state cfg)
      (announced filename s) scores out s1 /\
    quality_search cfg input_path temp_path (announced filename s) = (best_of out, s1) /\
    match out with
    | Return st =>
        let final := final_cmd cfg (best_quality st) input_path output_path in
        calls (snd r) = calls s1 ++ [final] /\
        (forall w, fs s1 = w -> fst (run_process final w) = 0 ->
                   fst r = accounted totals input_path output_path
                             (getsize (fs (snd r)) input_path)
                             (getsize (fs (snd r)) output_path)) /\
        (forall w, fs s1 = w -> fst (run_process final w) <> 0 ->
                   fst r = Raise (CalledProcessError (fst (run_process final w)) final))
    | Raise e => r = (Raise e, s1)
    | OutOfFuel => False
    end.
Proof.
  intros input_path temp_path output_path r.
  destruct (quality_search_run input_path temp_path (announced filename s))
    as (scores & out & Hrun & Hout).
  exists scores, out, (snd (quality_search cfg input_path temp_path (announced filename s))).
  split; [exact Hrun|].
  split; [rewrite <- Hout; apply surjective_pairing|].
  assert (Hqs : quality_search cfg input_path temp_path (announced filename s) =
                (best_of out,
                 snd (quality_search cfg input_path temp_path (announced filename s)))).
  { rewrite <- Hout. apply surjective_pairing. }
  set (s1 := snd (quality_search cfg input_path temp_path (announced filename s))) in *.
  subst r. unfold process_image. destruct totals as [total_savings image_count].
  fold input_path temp_path output_path.
  erewrite bind_Return by reflexivity. fold (announced filename s).
  destruct out as [st|e|].
  - cbn [best_of] in Hqs. erewrite bind_Return by exact Hqs.
    erewrite bind_Return by reflexivity.
    set (final := final_cmd cfg (best_quality st) input_path output_path).
    destruct (run_process final (fs s1)) as [rc w'] eqn:Hfinal.
    destruct (Z.eq_dec rc 0) as [->|Hrc].
    + erewrite bind_Return by (apply subprocess_run_check_ok; exact Hfinal).
      unfold bind, read, update, ret, print, os_path_getsize, accounted.
      cbn [fs calls stdout].
      destruct (path_exists w' temp_path); cbn [fs calls stdout fst snd].
      * destruct (getsize (remove temp_path w') input_path) as [a|] eqn:Ha;
          cbn [fs calls stdout fst snd]; rewrite ?Ha;
          [destruct (getsize (remove temp_path w') output_path) as [b|] eqn:Hb;
             cbn [fs calls stdout fst snd]; rewrite ?Ha, ?Hb|];
          (split; [reflexivity|]); (split; [intros w _ _; reflexivity|]);
          intros w <- Hbad; rewrite Hfinal in Hbad; cbn in Hbad; congruence.
      * destruct (getsize w' input_path) as [a|] eqn:Ha;
          cbn [fs calls stdout fst snd]; rewrite ?Ha;
          [destruct (getsize w' output_path) as [b|] eqn:Hb;
             cbn [fs calls stdout fst snd]; rewrite ?Ha, ?Hb|];
          (split; [reflexivity|]); (split; [intros w _ _; reflexivity|]);
          intros w <- Hbad; rewrite Hfinal in Hbad; cbn in Hbad; congruence.
    + erewrite bind_Raise by (apply subprocess_run_check_fails; eassumption).
      cbn [fst snd calls]. repeat split.
      * intros w <- Hok. rewrite Hfinal in Hok. cbn in Hok. congruence.
      * intros w <- _. rewrite Hfinal. reflexivity.
  - cbn [best_of] in Hqs. erewrite bind_Raise by exact Hqs. reflexivity.
  - destruct Hrun as (_ & _ & _ & []).
Qed.

(** ** The batch *)

Lemma for_each_file_skip (filename : string) (rest : list string)
      (totals : Z * Z) (s : state) :
  is_image_name filename = false ->
  for_each_file cfg (filename :: rest) totals s = for_each_file cfg rest totals s.
Proof. intros Hno. cbn [for_each_file]. rewrite Hno. reflexivity. Qed.

Lemma for_each_file_next (filename : string) (rest : list string)
      (totals totals' : Z * Z) (s s' : state) :
  is_image_name filename = true ->
  process_image cfg filename totals s = (Return totals', s') ->
  for_each_file cfg (filename :: rest) totals s = for_each_file cfg rest totals' s'.
Proof.
  intros Hyes Hp. cbn [for_each_file]. rewrite Hyes. cbn [negb].
  erewrite bind_Return by exact Hp. reflexivity.
Qed.

(** An exception in one image ends the loop: the files after it are not
    looked at. *)
Lemma for_each_file_raise (filename : string) (rest : list string)
      (totals : Z * Z) (s s' : state) (e : exception) :
  is_image_name filename = true ->
  process_image cfg filename totals s = (Raise e, s') ->
  for_each_file cfg (filename :: rest) totals s = (Raise e, s').
Proof.
  intros Hyes Hp. cbn [for_each_file]. rewrite Hyes. cbn [negb].
  erewrite bind_Raise by exact Hp. reflexivity.
Qed.

Lemma bind_assoc {A B C : Type} (c : M A) (k : A -> M B) (k' : B -> M C) (s : state) :
  bind (bind c k) k' s = bind c (fun a => bind (k a) k') s.
Proof. unfold bind. destruct (c s) as [[a|e|] s']; reflexivity. Qed.

Lemma for_each_file_app (before after : list string) :
  forall (totals : Z * Z) (s : state),
    for_each_file cfg (before ++ after) totals s =
    bind (for_each_file cfg before totals) (for_each_file cfg after) s.
Proof.
  induction before as [|filename before IH]; intros totals s.
  - reflexivity.
  - cbn [app for_each_file]. destruct (negb (is_image_name filename)).
    + apply IH.
    + rewrite bind_assoc.
      destruct (process_image cfg filename totals s) as [[totals'|e|] s'] eqn:Hp.
      * rewrite !(bind_Return _ _ _ _ _ Hp). apply IH.
      * rewrite !(bind_Raise _ _ _ _ _ Hp). reflexivity.
      * rewrite !(bind_OutOfFuel _ _ _ _ Hp). reflexivity.
Qed.

(** The script until it enters the loop, and what it makes of the loop's
    outcome. *)
Lemma auto_optimize_images_unfold (s : state) :
  is_tool_installed (fs s) "cwebp" = true ->
  auto_optimize_images cfg s =
  match for_each_file cfg (listdir (fs (set_up cfg s)) (SOURCE_FOLDER cfg))
                      (0, 0) (set_up cfg s) with
  | (Return (total_savings, image_count), s') =>
      print [if image_count >? 0 then PrintSummary image_count total_savings
             else PrintNoImages] s'
  | (Raise e, s') => (Raise e, s')
  | (OutOfFuel, s') => (OutOfFuel, s')
  end.
Proof.
  intros Hinst. unfold auto_optimize_images.
  erewrite bind_Return by (unfold read; rewrite Hinst; reflexivity).
  cbn [negb]. erewrite bind_Return by reflexivity.
  erewrite bind_Return by reflexivity. cbn [fs calls stdout].
  assert (Hsetup :
    (if negb (path_exists (fs s) (OUTPUT_FOLDER cfg))
     then update (makedirs (OUTPUT_FOLDER cfg)) else ret tt)
      {| fs := fs s; calls := calls s;
         stdout := stdout s ++ [PrintToolFound (TARGET_SSIM cfg)] |} =
    (Return tt, set_up cfg s)).
  { unfold set_up. destruct (path_exists (fs s) (OUTPUT_FOLDER cfg)); reflexivity. }
  erewrite bind_Return by exact Hsetup.
  erewrite bind_Return by reflexivity.
  unfold bind.
  destruct (for_each_file cfg _ (0, 0) (set_up cfg s)) as [[[ts ic]|e|] s'];
    try reflexivity.
  destruct (ic >? 0); reflexivity.
Qed.

(** ** The loop invariant on the bounds *)

(** C10.  Loop invariant of the quality search.  In every run of the search
    for one image, whatever the encoder and the evaluator do: each
    iteration is entered in a state with [MIN_QUALITY <= low], [high <=
    MAX_QUALITY] and tests a quality [q] with [low <= q <= high]; so every
    quality handed to the encoder during the search, the one of a failing
    call included, lies in [[MIN_QUALITY, MAX_QUALITY]], and so does the
    [best_quality] that the search returns (the range being non-empty, as
    it is for the defaults 40 and 95). *)
Theorem search_stays_in_range (input_path temp_path : string) (s : state) :
  exists scores out,
    search_run cfg input_path temp_path (initial_state cfg) s scores out
      (snd (quality_search cfg input_path temp_path s)) /\
    fst (quality_search cfg input_path temp_path s) = best_of out /\
    (forall st, In st (trajectory cfg (initial_state cfg) scores) ->
                MIN_QUALITY cfg <= low st /\
                low st <= quality_of st <= high st /\
                high st <= MAX_QUALITY cfg) /\
    (forall q, In q (tested cfg (initial_state cfg) scores) ->
               MIN_QUALITY cfg <= q <= MAX_QUALITY cfg) /\
    (forall e, out = Raise e ->
               MIN_QUALITY cfg <=
               quality_of (replay cfg (initial_state cfg) scores) <=
               MAX_QUALITY cfg) /\
    (MIN_QUALITY cfg <= MAX_QUALITY cfg ->
     forall best, fst (quality_search cfg input_path temp_path s) = Return best ->
                  MIN_QUALITY cfg <= best <= MAX_QUALITY cfg).
Proof.
  destruct (quality_search_run input_path temp_path s) as (scores & out & Hrun & Hout).
  exists scores, out. split; [exact Hrun|]. split; [exact Hout|].
  pose proof Hrun as (Hent & _ & _ & Hcase).
  destruct (trajectory_in_range (MIN_QUALITY cfg) (MAX_QUALITY cfg) scores
              (initial_state cfg) (Z.le_refl _) (Z.le_refl _) Hent)
    as (Hall & Hlow & Hhigh).
  rewrite Forall_forall in Hall.
  assert (Htested : forall q, In q (tested cfg (initial_state cfg) scores) ->
                              MIN_QUALITY cfg <= q <= MAX_QUALITY cfg).
  { intros q Hq. unfold tested in Hq. apply in_map_iff in Hq.
    destruct Hq as (st & <- & Hst). specialize (Hall st Hst). lia. }
  split; [exact Hall|]. split; [exact Htested|]. split.
  - intros e ->. destruct Hcase as (Hl & _).
    apply looping_spec in Hl.
    pose proof (quality_between _ Hl). lia.
  - intros Hrange best Hbest. rewrite Hout in Hbest.
    destruct out as [st|e|]; cbn [best_of] in Hbest; try discriminate.
    injection Hbest as <-. destruct Hcase as (-> & _).
    destruct (replay_best scores (initial_state cfg)) as [Heq|Hin].
    + rewrite Heq. cbn. lia.
    + apply Htested. exact Hin.
Qed.

(** ** Termination and the number of encoder calls *)

Lemma accounted_in_fuel (totals : Z * Z) (input_path output_path : string)
      (original_size optimized_size : option Z) :
  accounted totals input_path output_path original_size optimized_size <> OutOfFuel.
Proof.
  unfold accounted. destruct original_size, optimized_size; discriminate.
Qed.

(** What [accounted] raises is never a [CalledProcessError]. *)
Lemma accounted_no_process_error (totals : Z * Z) (input_path output_path : string)
      (original_size optimized_size : option Z) (rc : Z) (cmd : list string) :
  accounted totals input_path output_path original_size optimized_size <>
  Raise (CalledProcessError rc cmd).
Proof.
  unfold accounted. destruct original_size, optimized_size; discriminate.
Qed.

(** C4 (amended).  For [MIN_QUALITY <= MAX_QUALITY], processing one image
    never runs out of fuel (the loop terminates) and makes at most
    [ceil(log2(MAX_QUALITY - MIN_QUALITY + 1)) + 1] search calls [qs].
    Either every search call exited with status 0: then the calls made for
    the image are the search calls followed by exactly one final call, and
    what the image ends with is no failure of a search call.  Or the last
    search call exited with a status [rc <> 0]: then it is the last call
    made for the image, no final call follows, and the image ends with the
    [CalledProcessError] of that call. *)
Theorem encoder_calls_bounded (filename : string) (totals : Z * Z) (s : state) :
  MIN_QUALITY cfg <= MAX_QUALITY cfg ->
  let input_path := input_path_of cfg filename in
  let temp_path := temp_path_of cfg in
  let output_path := output_path_of cfg filename in
  let search := fun q => search_cmd cfg q input_path temp_path in
  let r := process_image cfg filename totals s in
  fst r <> OutOfFuel /\
  exists qs,
    Z.of_nat (List.length qs) <=
      Z.log2_up (MAX_QUALITY cfg - MIN_QUALITY cfg + 1) + 1 /\
    ((exists scores best,
        Forall2 (measured cfg input_path temp_path) qs scores /\
        calls (snd r) =
          calls s ++ map search qs ++ [final_cmd cfg best input_path output_path] /\
        forall rc q, fst r <> Raise (CalledProcessError rc (search q))) \/
     (exists earlier q rc w,
        qs = earlier ++ [q] /\
        rc <> 0 /\ fst (run_process (search q) w) = rc /\
        calls (snd r) = calls s ++ map search earlier ++ [search q] /\
        fst r = Raise (CalledProcessError rc (search q)))).
Proof.
  intros Hrange input_path temp_path output_path search r.
  destruct (process_image_calls filename totals s)
    as (scores & out & s1 & Hrun & Hqs & Hcase).
  fold input_path temp_path output_path r in Hrun, Hqs, Hcase.
  destruct Hrun as (Hent & Hmeasured & _ & Hout).
  assert (Hinit : low (initial_state cfg) <= high (initial_state cfg)) by exact Hrange.
  destruct out as [st|e|]; [| |contradiction].
  - destruct Hout as (-> & Hend & Hcalls).
    destruct Hcase as (Hfinal & Hok & Hbad).
    set (final := final_cmd cfg (best_quality (replay cfg (initial_state cfg) scores))
                            input_path output_path) in *.
    assert (Hr : fst r <> OutOfFuel /\
                 forall rc q, fst r <> Raise (CalledProcessError rc (search q))).
    { destruct (Z.eq_dec (fst (run_process final (fs s1))) 0) as [H0|H0].
      - rewrite (Hok _ eq_refl H0). split.
        + apply accounted_in_fuel.
        + intros rc q. apply accounted_no_process_error.
      - rewrite (Hbad _ eq_refl H0). split; [discriminate|].
        intros rc q Heq. discriminate Heq. }
    split; [exact (proj1 Hr)|].
    exists (tested cfg (initial_state cfg) scores). split.
    { rewrite tested_length.
      exact (iterations_bound scores (initial_state cfg) Hinit Hent). }
    left. exists scores. eexists. split; [exact Hmeasured|]. split.
    { rewrite Hfinal, Hcalls. cbn [announced calls].
      rewrite <- app_assoc. reflexivity. }
    exact (proj2 Hr).
  - destruct Hout as (Hl & (rc & w & Hrc & Hexit & ->) & Hcalls).
    split; [rewrite Hcase; discriminate|].
    exists (tested cfg (initial_state cfg) (scores ++ [float_zero])).
    split.
    { rewrite tested_length.
      apply (iterations_bound _ (initial_state cfg) Hinit).
      apply entered_snoc; assumption. }
    right. exists (tested cfg (initial_state cfg) scores).
    exists (quality_of (replay cfg (initial_state cfg) scores)), rc, w.
    split.
    { unfold tested. rewrite trajectory_snoc, map_app. reflexivity. }
    split; [exact Hrc|]. split; [exact Hexit|]. split.
    { rewrite Hcase. cbn [snd]. rewrite Hcalls. cbn [announced calls]. reflexivity. }
    rewrite Hcase. reflexivity.
Qed.

(** ** The fallback to the ceiling *)


(** ** [best_quality] over the iterations *)

Lemma best_history_sorted (hi : Z) :
  forall (scores : list pyfloat) (st : SearchState),
    best_follows_high hi st ->
    entered cfg st scores ->
    Sorted (fun a b => b <= a) (best_history cfg st scores).
Proof.
  induction scores as [|score scores IH]; intros st Hb Hent; cbn [best_history].
  - repeat constructor.
  - apply entered_cons in Hent. destruct Hent as [Hle Hent].
    constructor.
    + apply IH; [apply best_follows_high_decide; exact Hb | exact Hent].
    + destruct scores; cbn [best_history]; constructor;
        destruct (decide_best hi st score Hb Hle) as [Hbad Hgood];
        destruct (good_enough cfg score);
        [ destruct (Hgood eq_refl) as [-> [Hlt|[Heq1 Heq2]]]; lia
        | rewrite (Hbad eq_refl); lia
        | destruct (Hgood eq_refl) as [-> [Hlt|[Heq1 Heq2]]]; lia
        | rewrite (Hbad eq_refl); lia ].
Qed.

Lemma best_history_last :
  forall (scores : list pyfloat) (st : SearchState),
    last (best_history cfg st scores) 0 = best_quality (replay cfg st scores).
Proof.
  induction scores as [|score scores IH]; intros st; [reflexivity|].
  cbn [best_history replay]. rewrite <- IH.
  destruct scores; reflexivity.
Qed.

Lemma trajectory_steps (hi : Z) :
  forall (scores : list pyfloat) (st : SearchState),
    best_follows_high hi st ->
    entered cfg st scores ->
    forall st' score', In (st', score') (combine (trajectory cfg st scores) scores) ->
                       best_follows_high hi st' /\ low st' <= high st'.
Proof.
  induction scores as [|score scores IH]; intros st Hb Hent st' score' Hin.
  - destruct Hin.
  - apply entered_cons in Hent. destruct Hent as [Hle Hent].
    cbn [trajectory combine] in Hin. destruct Hin as [Heq|Hin].
    + injection Heq as <- <-. split; assumption.
    + eapply IH; [apply best_follows_high_decide; exact Hb | exact Hent | exact Hin].
Qed.

(** C9, as amended.  Throughout one image's quality search [best_quality]
    never grows: it starts at [MAX_QUALITY]; an iteration whose score is
    below the target leaves it alone; an iteration whose score meets the
    target sets it to the tested quality, which is strictly below its
    current value unless the tested quality is [MAX_QUALITY] itself, in
    which case it stays at [MAX_QUALITY]. *)
Theorem best_quality_never_grows (input_path temp_path : string) (s : state) :
  exists scores out,
    search_run cfg input_path temp_path (initial_state cfg) s scores out
      (snd (quality_search cfg input_path temp_path s)) /\
    fst (quality_search cfg input_path temp_path s) = best_of out /\
    hd 0 (best_history cfg (initial_state cfg) scores) = MAX_QUALITY cfg /\
    last (best_history cfg (initial_state cfg) scores) 0 =
      best_quality (replay cfg (initial_state cfg) scores) /\
    Sorted (fun a b => b <= a) (best_history cfg (initial_state cfg) scores) /\
    (forall st score,
        In (st, score) (combine (trajectory cfg (initial_state cfg) scores) scores) ->
        (good_enough cfg score = false ->
         best_quality (decide cfg st score) = best_quality st) /\
        (good_enough cfg score = true ->
         best_quality (decide cfg st score) = quality_of st /\
         (quality_of st < best_quality st \/
          (quality_of st = MAX_QUALITY cfg /\ best_quality st = MAX_QUALITY cfg)))).
Proof.
  destruct (quality_search_run input_path temp_path s) as (scores & out & Hrun & Hout).
  exists scores, out. split; [exact Hrun|]. split; [exact Hout|].
  destruct Hrun as (Hent & _).
  assert (Hb : best_follows_high (MAX_QUALITY cfg) (initial_state cfg)).
  { left. split; reflexivity. }
  split; [destruct scores; reflexivity|].
  split; [apply best_history_last|].
  split; [apply (best_history_sorted (MAX_QUALITY cfg)); assumption|].
  intros st score Hin.
  destruct (trajectory_steps (MAX_QUALITY cfg) scores (initial_state cfg)
              Hb Hent st score Hin) as [Hst Hle].
  apply decide_best; assumption.
Qed.

(** ** The least accepted quality *)

Lemma scored_by_measured (sim : Z -> pyfloat) (input_path temp_path : string)
      (lo hi : Z) :
  (forall q w, lo <= q <= hi ->
     fst (calculate_ssim (snd (run_process (search_cmd cfg q input_path temp_path) w))
                         input_path temp_path) = sim q) ->
  forall (scores : list pyfloat) (st : SearchState),
    lo <= low st -> high st <= hi ->
    entered cfg st scores ->
    Forall2 (measured cfg input_path temp_path) (tested cfg st scores) scores ->
    scored_by cfg sim st scores.
Proof.
  intros Hsim. induction scores as [|score scores IH]; intros st Hlo Hhi Hent Hmeas.
  - constructor.
  - apply entered_cons in Hent. destruct Hent as [Hle Hent].
    pose proof (quality_between st Hle) as Hq.
    unfold tested in Hmeas. cbn [trajectory map] in Hmeas.
    inversion Hmeas as [|? ? ? ? (w & _ & Hscore) Hrest]; subst.
    unfold scored_by, tested. cbn [trajectory map]. constructor.
    + rewrite Hsim by lia. reflexivity.
    + apply IH; auto.
      * unfold decide. destruct (good_enough cfg _); cbn [low]; lia.
      * unfold decide. destruct (good_enough cfg _); cbn [high]; lia.
Qed.

(** C1, as amended.  Let the similarity be a function [sim] of the quality
    that never decreases when the quality grows, let the encoder calls of
    the search succeed, and let at least one quality of
    [[MIN_QUALITY, MAX_QUALITY]] meet the target.  Then the search returns
    the least quality of that range whose similarity meets the target; in
    particular, when a quality [q0] of the range meets the target and
    [q0 - 1] does not (for the defaults: 60 does, 59 does not), it returns
    [q0]. *)
Theorem search_finds_least_quality (sim : Z -> pyfloat) (input_path temp_path : string)
        (s : state) :
  monotone sim ->
  (forall q w, MIN_QUALITY cfg <= q <= MAX_QUALITY cfg ->
     fst (run_process (search_cmd cfg q input_path temp_path) w) = 0) ->
  (forall q w, MIN_QUALITY cfg <= q <= MAX_QUALITY cfg ->
     fst (calculate_ssim (snd (run_process (search_cmd cfg q input_path temp_path) w))
                         input_path temp_path) = sim q) ->
  (exists q, MIN_QUALITY cfg <= q <= MAX_QUALITY cfg /\ accepts cfg sim q = true) ->
  exists best,
    fst (quality_search cfg input_path temp_path s) = Return best /\
    least_accepted (accepts cfg sim) (MIN_QUALITY cfg) (MAX_QUALITY cfg) best /\
    (forall q0, MIN_QUALITY cfg <= q0 <= MAX_QUALITY cfg ->
                accepts cfg sim q0 = true ->
                accepts cfg sim (q0 - 1) = false ->
                best = q0).
Proof.
  intros Hmono Henc Hsim Hsome.
  assert (Hrange : MIN_QUALITY cfg <= MAX_QUALITY cfg).
  { destruct Hsome as (q & Hq & _). lia. }
  destruct (quality_search_run input_path temp_path s) as (scores & out & Hrun & Hout).
  destruct Hrun as (Hent & Hmeas & _ & Hcase).
  destruct (trajectory_in_range (MIN_QUALITY cfg) (MAX_QUALITY cfg) scores
              (initial_state cfg) (Z.le_refl _) (Z.le_refl _) Hent)
    as (_ & Hlow & Hhigh).
  destruct out as [st|e|]; [| |contradiction].
  - destruct Hcase as (-> & Hend & _).
    exists (best_quality (replay cfg (initial_state cfg) scores)).
    split; [exact Hout|].
    assert (Hleast : least_accepted (accepts cfg sim) (MIN_QUALITY cfg) (MAX_QUALITY cfg)
                       (best_quality (replay cfg (initial_state cfg) scores))).
    { apply search_inv_final; [|exact Hend|exact Hsome].
      apply search_inv_replay; auto.
      - eapply scored_by_measured; eauto; cbn; lia.
      - apply search_inv_initial. exact Hrange. }
    split; [exact Hleast|].
    intros q0 Hq0 Hyes Hno.
    destruct Hleast as (Hb & Hbok & Hbmin).
    set (best := best_quality (replay cfg (initial_state cfg) scores)) in *.
    destruct (Z.lt_trichotomy best q0) as [Hlt|[Heq|Hgt]]; [|exact Heq|].
    + assert (Hprev : accepts cfg sim (q0 - 1) = true).
      { apply (accepts_monotone sim best); [exact Hmono | lia | exact Hbok]. }
      congruence.
    + rewrite Hbmin in Hyes by lia. discriminate.
  - destruct Hcase as (Hl & (rc & w & Hrc & Hexit & _) & _).
    apply looping_spec in Hl. pose proof (quality_between _ Hl) as Hq.
    rewrite Henc in Hexit by lia. congruence.
Qed.

(** ** The command lines *)

Lemma str_is_no_filter_flag (n : Z) :
  existsb (String.eqb (str n)) filter_flags = false.
Proof.
  unfold str, NilZero.string_of_int, NilZero.string_of_uint.
  destruct (Z.to_int n) as [d|d]; destruct d; reflexivity.
Qed.

Lemma default_input_is_no_filter_flag (filename : string) :
  existsb (String.eqb (path_join "images" filename)) filter_flags = false.
Proof.
  unfold path_join. destruct filename as [|c rest].
  - reflexivity.
  - cbn [prefix]. destruct (ascii_dec "/" c) as [<-|Hc].
    + destruct rest; reflexivity.
    + reflexivity.
Qed.

Lemma search_cmd_without_filters (q : Z) (input_path temp_path : string) :
  existsb (String.eqb input_path) filter_flags = false ->
  existsb (String.eqb temp_path) filter_flags = false ->
  has_filter_flag (search_cmd cfg q input_path temp_path) = false.
Proof.
  intros Hin Htemp. unfold has_filter_flag, search_cmd. cbn [existsb].
  rewrite !str_is_no_filter_flag, Hin, Htemp. reflexivity.
Qed.

Lemma final_cmd_with_filters (q : Z) (input_path output_path : string) :
  has_filter_flag (final_cmd cfg q input_path output_path) = true.
Proof.
  unfold has_filter_flag, final_cmd. cbn [existsb].
  rewrite !str_is_no_filter_flag. reflexivity.
Qed.

(** C7.  With the folders of the script, the encoder calls for one image
    are a list of search calls followed by at most one final call.  Every
    search call is [cwebp -q <quality> -m <WEBP_METHOD> <input> -o <temp>]
    and carries none of the filter flags; the final call has the same
    quality and effort options and carries the filter flags [-mt] and
    [-sharp_yuv]; it is the last call, and it is missing only when a search
    call failed. *)
Theorem filters_on_final_pass_only (filename : string) (totals : Z * Z) (s : state) :
  SOURCE_FOLDER cfg = "images" ->
  OUTPUT_FOLDER cfg = "optimized_images" ->
  let input_path := input_path_of cfg filename in
  let temp_path := temp_path_of cfg in
  let output_path := output_path_of cfg filename in
  let r := process_image cfg filename totals s in
  exists qs finals,
    calls (snd r) =
      calls s ++ map (fun q => search_cmd cfg q input_path temp_path) qs ++ finals /\
    (forall q,
        search_cmd cfg q input_path temp_path =
          ["cwebp"; "-q"; str q; "-m"; str (WEBP_METHOD cfg);
           input_path; "-o"; temp_path] /\
        has_filter_flag (search_cmd cfg q input_path temp_path) = false) /\
    ((exists best,
         finals = [final_cmd cfg best input_path output_path] /\
         final_cmd cfg best input_path output_path =
           ["cwebp"; "-q"; str best; "-m"; str (WEBP_METHOD cfg);
            "-mt"; "-sharp_yuv"; input_path; "-o"; output_path] /\
         has_filter_flag (final_cmd cfg best input_path output_path) = true) \/
     (finals = [] /\
      exists rc q, rc <> 0 /\
        fst r = Raise (CalledProcessError rc (search_cmd cfg q input_path temp_path)))).
Proof.
  intros Hsrc Hout input_path temp_path output_path r.
  assert (Hflags : forall q,
             search_cmd cfg q input_path temp_path =
               ["cwebp"; "-q"; str q; "-m"; str (WEBP_METHOD cfg);
                input_path; "-o"; temp_path] /\
             has_filter_flag (search_cmd cfg q input_path temp_path) = false).
  { intros q. split; [reflexivity|].
    apply search_cmd_without_filters.
    - unfold input_path, input_path_of. rewrite Hsrc.
      apply default_input_is_no_filter_flag.
    - unfold temp_path, temp_path_of. rewrite Hout. reflexivity. }
  destruct (process_image_calls filename totals s)
    as (scores & out & s1 & Hrun & Hqs & Hcase).
  fold input_path temp_path output_path r in Hrun, Hqs, Hcase.
  destruct Hrun as (Hent & _ & _ & Hres).
  destruct out as [st|e|]; [| |contradiction].
  - destruct Hres as (-> & Hend & Hcalls). destruct Hcase as (Hfinal & _).
    exists (tested cfg (initial_state cfg) scores). eexists.
    split.
    { rewrite Hfinal, Hcalls. cbn [announced calls].
      rewrite <- app_assoc. reflexivity. }
    split; [exact Hflags|].
    left. eexists. split; [reflexivity|].
    split; [reflexivity | apply final_cmd_with_filters].
  - destruct Hres as (Hl & (rc & w & Hrc & _ & ->) & Hcalls).
    exists (tested cfg (initial_state cfg) (scores ++ [float_zero])), [].
    split.
    { rewrite Hcase. cbn [snd]. rewrite Hcalls. cbn [announced calls].
      unfold tested. rewrite trajectory_snoc, !map_app, app_nil_r. reflexivity. }
    split; [exact Hflags|].
    right. split; [reflexivity|].
    exists rc. eexists. split; [exact Hrc|]. rewrite Hcase. reflexivity.
Qed.

(** ** Failures *)

(** C3, as amended.  If an encoder invocation fails while one image is
    processed, the processing of that image stops with
    [CalledProcessError], the failing call being the last one made; and the
    batch stops with it: the error is the outcome of the [for] loop and of
    the whole script, in the state in which the image failed, so no later
    file is processed and nothing more is printed.  What was done for the
    files before it stays as it was.  The only other exception an image
    can end with is the [OSError] of [os.path.getsize] on its input or
    output path (lines 109-110), and it stops the batch in the same way. *)
Theorem encoder_failure_stops_batch
        (before rest : list string) (filename : string)
        (s s1 s2 : state) (totals1 : Z * Z) (e : exception) :
  is_tool_installed (fs s) "cwebp" = true ->
  listdir (fs (set_up cfg s)) (SOURCE_FOLDER cfg) = before ++ filename :: rest ->
  for_each_file cfg before (0, 0) (set_up cfg s) = (Return totals1, s1) ->
  is_image_name filename = true ->
  process_image cfg filename totals1 s1 = (Raise e, s2) ->
  ((exists rc cmd earlier,
       rc <> 0 /\ e = CalledProcessError rc cmd /\
       calls s2 = calls s1 ++ earlier ++ [cmd]) \/
   (exists path,
       e = OSError path /\
       (path = input_path_of cfg filename \/ path = output_path_of cfg filename))) /\
  for_each_file cfg (before ++ filename :: rest) (0, 0) (set_up cfg s) = (Raise e, s2) /\
  auto_optimize_images cfg s = (Raise e, s2).
Proof.
  intros Hinst Hlist Hbefore Himg Hfail.
  assert (Hloop : for_each_file cfg (before ++ filename :: rest) (0, 0) (set_up cfg s) =
                  (Raise e, s2)).
  { rewrite for_each_file_app.
    erewrite bind_Return by exact Hbefore.
    apply for_each_file_raise; assumption. }
  split; [|split; [exact Hloop|]].
  - destruct (process_image_calls filename totals1 s1)
      as (scores & out & s' & Hrun & Hqs & Hcase).
    rewrite Hfail in Hcase. cbn [fst snd] in Hcase.
    destruct Hrun as (_ & _ & _ & Hres).
    destruct out as [st|e'|]; [| |contradiction].
    + destruct Hres as (_ & _ & Hcalls). destruct Hcase as (Hfinal & Hok & Hbad).
      set (final := final_cmd cfg (best_quality st) (input_path_of cfg filename)
                              (output_path_of cfg filename)) in *.
      destruct (Z.eq_dec (fst (run_process final (fs s'))) 0) as [H0|H0].
      * specialize (Hok _ eq_refl H0). right. unfold accounted in Hok.
        destruct (getsize (fs s2) (input_path_of cfg filename));
          [destruct (getsize (fs s2) (output_path_of cfg filename));
             [discriminate|]|];
          injection Hok as ->; eexists; (split; [reflexivity|]); tauto.
      * specialize (Hbad _ eq_refl H0). injection Hbad as ->. left.
        eexists. exists final. eexists. split; [exact H0|]. split; [reflexivity|].
        rewrite Hfinal, Hcalls. cbn [announced calls].
        rewrite <- app_assoc. reflexivity.
    + destruct Hres as (_ & (rc & w & Hrc & _ & He') & Hcalls).
      injection Hcase as -> ->. subst e'. left.
      exists rc. eexists. eexists. split; [exact Hrc|]. split; [reflexivity|].
      rewrite Hcalls. cbn [announced calls]. reflexivity.
  - rewrite auto_optimize_images_unfold by exact Hinst.
    rewrite Hlist, Hloop. reflexivity.
Qed.

(** ** The similarity evaluation *)

Lemma size_eqb_spec (a b : Z * Z) : size_eqb a b = true <-> a = b.
Proof.
  unfold size_eqb. destruct a as [a1 a2], b as [b1 b2]. cbn [fst snd].
  rewrite andb_true_iff, !Z.eqb_eq. split.
  - intros [-> ->]. reflexivity.
  - intros [= -> ->]. split; reflexivity.
Qed.

Lemma loaded_spec (w : World) (path : string) (img : image) :
  loaded w path img <->
  and_then (Image_open w path) (fun opened => convert_L opened) = inr img.
Proof.
  unfold loaded. split.
  - intros (opened & -> & Hc). exact Hc.
  - destruct (Image_open w path) as [e|opened]; [discriminate|].
    intros Hc. exists opened. split; [reflexivity | exact Hc].
Qed.

Lemma fitted_spec (img1 img2 img2' : image) :
  fitted img1 img2 img2' <->
  (if negb (size_eqb (size img1) (size img2))
   then resize_LANCZOS img2 (size img1) else inr img2) = inr img2'.
Proof.
  unfold fitted. destruct (size_eqb (size img1) (size img2)) eqn:Hs; cbn [negb].
  - apply size_eqb_spec in Hs. split.
    + intros [[_ ->]|[Hne _]]; [reflexivity | contradiction].
    + intros [= <-]. left. split; [exact Hs | reflexivity].
  - assert (Hne : size img1 <> size img2).
    { intros Heq. apply size_eqb_spec in Heq. congruence. }
    split.
    + intros [[Heq _]|[_ Hr]]; [contradiction | exact Hr].
    + intros Hr. right. split; assumption.
Qed.

Lemma size_differs (a b : Z * Z) : a <> b -> negb (size_eqb a b) = true.
Proof.
  intros Hne. destruct (size_eqb a b) eqn:Hs; [|reflexivity].
  apply size_eqb_spec in Hs. contradiction.
Qed.

(** Running [ssim_attempt] on what its steps are known to have returned. *)
Ltac run_steps :=
  repeat match goal with
         | H : loaded _ _ _ |- _ => destruct H as (? & ? & ?)
         | H : fitted _ _ _ |- _ => apply fitted_spec in H
         | H : size _ <> size _ |- _ => apply size_differs in H
         end;
  unfold ssim_attempt;
  repeat (cbn [and_then];
          match goal with
          | H : ?step = _ |- context [and_then ?step _] => rewrite H
          | H : ?test = true |- context [if ?test then _ else _] => rewrite H
          end);
  cbn [and_then]; try reflexivity; try assumption.

Lemma raised_sound (w : World) (img1_path img2_path : string) (e : exn) :
  raised w img1_path img2_path e -> ssim_attempt w img1_path img2_path = inl e.
Proof. intros Hr. destruct Hr; run_steps. Qed.

Lemma evaluated_sound (w : World) (img1_path img2_path : string) (score : pyfloat) :
  evaluated w img1_path img2_path score ->
  ssim_attempt w img1_path img2_path = inr score.
Proof.
  intros (img1 & img2 & img2' & img1_arr & img2_arr & hi & lo &
          H1 & H2 & Hf & Ha1 & Ha2 & Hhi & Hlo & Hs).
  run_steps.
Qed.


Lemma calculate_ssim_raised (w : World) (img1_path img2_path : string) (e : exn) :
  raised w img1_path img2_path e ->
  calculate_ssim w img1_path img2_path = (float_zero, [PrintWarning e]).
Proof.
  intros Hr. unfold calculate_ssim. rewrite (raised_sound _ _ _ _ Hr). reflexivity.
Qed.

Lemma calculate_ssim_evaluated (w : World) (img1_path img2_path : string)
      (score : pyfloat) :
  evaluated w img1_path img2_path score ->
  calculate_ssim w img1_path img2_path = (score, []).
Proof.
  intros He. unfold calculate_ssim. rewrite (evaluated_sound _ _ _ _ He). reflexivity.
Qed.


(** C6 (amended).  When the encoder call of an iteration has exited with
    status 0 and a step of the evaluation that follows raises [e]:
    [calculate_ssim] returns 0 and prints exactly one warning, with [e];
    the iteration prints its test line with the score 0 and the loop goes
    on from the decision for the score 0, which, 0 being below the target,
    moves [low] above the tested quality and keeps [best_quality].  And
    whatever the evaluations do, the only exception a search can end with
    is the [CalledProcessError] of an encoder call. *)
Theorem evaluation_failure_scores_zero
        (fuel : nat) (input_path temp_path : string) (st : SearchState)
        (s : state) (w' : World) (e : exn) :
  looping st = true ->
  run_process (search_cmd cfg (quality_of st) input_path temp_path) (fs s) = (0, w') ->
  raised w' input_path temp_path e ->
  calculate_ssim w' input_path temp_path = (float_zero, [PrintWarning e]) /\
  while_search cfg (S fuel) input_path temp_path st s =
    while_search cfg fuel input_path temp_path (decide cfg st float_zero)
      {| fs := w';
         calls := calls s ++ [search_cmd cfg (quality_of st) input_path temp_path];
         stdout := stdout s ++ [PrintWarning e; PrintTest (quality_of st) float_zero] |} /\
  (good_enough cfg float_zero = false ->
   decide cfg st float_zero =
     {| low := quality_of st + 1; high := high st; best_quality := best_quality st |}) /\
  (forall s0 x,
      fst (quality_search cfg input_path temp_path s0) = Raise x ->
      exists rc q, rc <> 0 /\
                   x = CalledProcessError rc (search_cmd cfg q input_path temp_path)).
Proof.
  intros Hl Hrun Hraised.
  pose proof (calculate_ssim_raised _ _ _ _ Hraised) as Hzero.
  split; [exact Hzero|]. split.
  { rewrite (while_search_step fuel input_path temp_path st s w' Hl Hrun).
    cbv zeta. rewrite Hzero. cbn [fst snd]. rewrite <- app_assoc. reflexivity. }
  split; [apply decide_bad|].
  intros s0 x Hx.
  destruct (quality_search_run input_path temp_path s0)
    as (scores & out & Hsearch & Hout).
  rewrite Hx in Hout. destruct out as [final|x'|]; try discriminate.
  cbn [best_of] in Hout. injection Hout as <-.
  destruct Hsearch as (_ & _ & _ & (_ & (rc & w & Hrc & _ & ->) & _)).
  exists rc. eexists. split; [exact Hrc | reflexivity].
Qed.

(** C8 (amended).  For two images that decode to the same image (as two
    bit-for-bit identical files do), [calculate_ssim] compares the image
    with itself, without resizing it, with [max - min] of its grey levels
    as data range, and returns what the library's [structural_similarity]
    gives for that comparison: its score, which is at least 0.999 exactly
    when the library's is, or 0 with a warning when the library raises. *)
Theorem identical_images_score (w : World) (img1_path img2_path : string)
        (img : image) (arr : array) (hi lo : Z) :
  loaded w img1_path img ->
  loaded w img2_path img ->
  np_array img = inr arr ->
  array_max arr = inr hi ->
  array_min arr = inr lo ->
  calculate_ssim w img1_path img2_path =
    match ssim arr arr (uint8_sub hi lo) with
    | inr score => (score, [])
    | inl e => (float_zero, [PrintWarning e])
    end /\
  (float_ge (fst (calculate_ssim w img1_path img2_path)) float_0_999 = true <->
   exists score, ssim arr arr (uint8_sub hi lo) = inr score /\
                 float_ge score float_0_999 = true).
Proof.
  intros H1 H2 Harr Hhi Hlo.
  assert (Hfit : fitted img img img) by (left; split; reflexivity).
  assert (Hresult :
    calculate_ssim w img1_path img2_path =
    match ssim arr arr (uint8_sub hi lo) with
    | inr score => (score, [])
    | inl e => (float_zero, [PrintWarning e])
    end).
  { destruct (ssim arr arr (uint8_sub hi lo)) as [e|score] eqn:Hs.
    - apply calculate_ssim_raised. eapply raised_ssim; eassumption.
    - apply calculate_ssim_evaluated.
      exists img, img, img, arr, arr, hi, lo. repeat split; assumption. }
  split; [exact Hresult|]. rewrite Hresult.
  destruct (ssim arr arr (uint8_sub hi lo)) as [e|score]; cbn [fst]; split.
  - intros Hge. discriminate Hge.
  - intros (score & [=] & _).
  - intros Hge. exists score. split; [reflexivity | exact Hge].
  - intros (score' & [= <-] & Hge). exact Hge.
Qed.

End Properties.

(** * The script on the concrete world *)

Lemma demo_quality_arg (cfg : config) (q : Z) (input_path temp_path : string) :
  Demo.quality_arg (search_cmd cfg q input_path temp_path) = q.
Proof.
  unfold Demo.quality_arg, search_cmd. cbn [nth]. unfold str.
  rewrite NilZero.isi.
  - apply DecimalZ.of_to.
  - destruct q as [|p|p]; cbn; try discriminate.
    intros [= Hnil]. revert Hnil. apply DecimalPos.Unsigned.to_uint_nonnil.
  - destruct q as [|p|p]; cbn; try discriminate.
    intros [= Hnil]. revert Hnil. apply DecimalPos.Unsigned.to_uint_nonnil.
Qed.

(** In a [Demo.scoring] world the score measured after encoding at [q] is
    [sim q]. *)
Lemma demo_measures (sim : Z -> pyfloat) (cfg : config) (q : Z)
      (input_path temp_path : string) (w : Demo.world) :
  fst (calculate_ssim (H := Demo.scoring sim)
         (snd (run_process (Environment := Demo.scoring sim)
                 (search_cmd cfg q input_path temp_path) w))
         input_path temp_path) = sim q.
Proof.
  cbn [run_process Demo.scoring Demo.env]. unfold Demo.demo_run.
  cbn [Demo.always_ok Z.eqb snd].
  rewrite demo_quality_arg.
  unfold calculate_ssim, ssim_attempt.
  cbn [Image_open convert_L size resize_LANCZOS np_array array_max array_min ssim
       Demo.scoring Demo.env and_then].
  unfold Demo.demo_open. cbn [Demo.no_file and_then].
  cbn [size_eqb fst snd Z.eqb andb negb and_then].
  cbn [Demo.lookup Demo.output_arg search_cmd last fst snd].
  rewrite String.eqb_refl. reflexivity.
Qed.

Lemma demo_encoder_ok (sim : Z -> pyfloat) (cmd : list string) (w : Demo.world) :
  fst (run_process (Environment := Demo.scoring sim) cmd w) = 0.
Proof. reflexivity. Qed.

Lemma monotone_step_at (threshold : Z) : monotone (Demo.step_at threshold).
Proof.
  intros q1 q2 Hle. unfold Demo.step_at.
  destruct (q1 <? threshold) eqn:H1, (q2 <? threshold) eqn:H2; try reflexivity.
  apply Z.ltb_lt in H2. apply Z.ltb_ge in H1. lia.
Qed.

Lemma monotone_flat (score : pyfloat) :
  SFleb score score = true -> monotone (Demo.flat score).
Proof. intros Hrefl q1 q2 _. exact Hrefl. Qed.


(** ** C1: which quality the search returns *)

(** C1 fails as stated.  With the defaults and a monotone oracle that gives
    0.97 up to quality 54 and 0.99 from 55 on (so 0.97 at 50 and 0.99 at
    60), the search tests 67, 53, 60, 56, 54, 55 and returns 55, not 60.
    And with a monotone oracle that gives 0.97 everywhere the search
    returns 95, a quality whose similarity does not meet the target. *)
Lemma search_result_need_not_be_60 :
  (let E := Demo.scoring (Demo.step_at 55) in
   let r := quality_search default_config "images/a.png"
              "optimized_images/temp.webp" (Demo.start []) in
   monotone (Demo.step_at 55) /\
   Demo.step_at 55 50 = Demo.float_0_97 /\
   Demo.step_at 55 60 = Demo.float_0_99 /\
   accepts default_config (Demo.step_at 55) 50 = false /\
   accepts default_config (Demo.step_at 55) 60 = true /\
   test_events (stdout (snd r)) =
     [(67, Demo.float_0_99); (53, Demo.float_0_97); (60, Demo.float_0_99);
      (56, Demo.float_0_99); (54, Demo.float_0_97); (55, Demo.float_0_99)] /\
   fst r = Return 55 /\
   fst r <> Return 60) /\
  (let E := Demo.scoring (Demo.flat Demo.float_0_97) in
   let r := quality_search default_config "images/a.png"
              "optimized_images/temp.webp" (Demo.start []) in
   monotone (Demo.flat Demo.float_0_97) /\
   fst r = Return 95 /\
   accepts default_config (Demo.flat Demo.float_0_97) 95 = false).
Proof.
  cbv zeta. split.
  - split; [apply monotone_step_at|].
    split; [reflexivity|]. split; [reflexivity|].
    split; [reflexivity|]. split; [reflexivity|].
    split; [vm_compute; reflexivity|].
    split; [vm_compute; reflexivity|].
    vm_compute. discriminate.
  - split; [apply monotone_flat; reflexivity|].
    split; vm_compute; reflexivity.
Qed.

(** With the defaults and a crossing exactly at 60, the search returns 60. *)
Lemma search_finds_least_quality_witness :
  let E := Demo.scoring (Demo.step_at 60) in
  monotone (Demo.step_at 60) /\
  accepts default_config (Demo.step_at 60) 60 = true /\
  accepts default_config (Demo.step_at 60) 59 = false /\
  fst (quality_search default_config "images/a.png" "optimized_images/temp.webp"
         (Demo.start [])) = Return 60.
Proof.
  cbv zeta.
  split; [apply monotone_step_at|].
  split; [reflexivity|]. split; [reflexivity|].
  destruct (search_finds_least_quality (H := Demo.scoring (Demo.step_at 60))
              default_config (Demo.step_at 60)
              "images/a.png" "optimized_images/temp.webp"
              (Demo.start (H := Demo.scoring (Demo.step_at 60)) []))
    as (best & Hret & _ & Hq0).
  - apply monotone_step_at.
  - intros q w _. apply demo_encoder_ok.
  - intros q w _. apply demo_measures.
  - exists 60. split; [cbn; lia | reflexivity].
  - rewrite Hret. f_equal. apply (Hq0 60); [cbn; lia | reflexivity | reflexivity].
Defined.

(** ** C9: an update that does not lower [best_quality] *)

(** C9 fails as stated.  With the defaults and an oracle that meets the
    target at quality 95 only, the search tests 67, 81, 88, 92, 94 and then
    95 in the state [low = high = best_quality = 95]; the score meets the
    target, and the update sets [best_quality] to 95, which is not below
    its current value. *)
Lemma update_at_ceiling_is_not_strict :
  let E := Demo.scoring (Demo.step_at 95) in
  let r := quality_search default_config "images/a.png"
             "optimized_images/temp.webp" (Demo.start []) in
  let scores := map snd (test_events (stdout (snd r))) in
  let st := {| low := 95; high := 95; best_quality := 95 |} in
  fst r = Return 95 /\
  map fst (test_events (stdout (snd r))) = [67; 81; 88; 92; 94; 95] /\
  In (st, Demo.float_0_99)
     (combine (trajectory default_config (initial_state default_config) scores)
              scores) /\
  good_enough default_config Demo.float_0_99 = true /\
  best_quality (decide default_config st Demo.float_0_99) = 95 /\
  ~ best_quality (decide default_config st Demo.float_0_99) < best_quality st.
Proof.
  cbv zeta.
  split; [vm_compute; reflexivity|].
  split; [vm_compute; reflexivity|].
  split; [vm_compute; do 5 right; left; reflexivity|].
  split; [vm_compute; reflexivity|].
  split; [vm_compute; reflexivity|].
  vm_compute. discriminate.
Qed.

(** ** C3: a failing encoder call *)

(** C3 fails as stated.  In a folder with [a.png], [b.png] and [c.png],
    where the encoder fails on [b.png], the script ends with the
    [CalledProcessError] of the first call for [b.png]: that call is the
    last one made, nothing is encoded for [c.png], and no summary is
    printed. *)
Lemma batch_stops_at_failing_image :
  let E := Demo.env ["a.png"; "b.png"; "c.png"] (Demo.fails_on "images/b.png")
                    Demo.no_file (Demo.step_at 55) in
  let r := auto_optimize_images default_config (Demo.start []) in
  let failing := ["cwebp"; "-q"; "67"; "-m"; "6"; "images/b.png"; "-o";
                  "optimized_images/temp.webp"] in
  fst r = Raise (CalledProcessError 1 failing) /\
  last (calls (snd r)) [] = failing /\
  existsb (fun cmd => existsb (String.eqb "images/c.png") cmd) (calls (snd r)) = false /\
  last (stdout (snd r)) PrintNoImages = PrintProcessing "b.png".
Proof.
  cbv zeta.
  split; [vm_compute; reflexivity|].
  split; [vm_compute; reflexivity|].
  split; vm_compute; reflexivity.
Qed.

(** The same folder: [a.png] is processed, [b.png] raises, and the script
    ends there. *)
Lemma encoder_failure_stops_batch_witness :
  let E := Demo.env ["a.png"; "b.png"; "c.png"] (Demo.fails_on "images/b.png")
                    Demo.no_file (Demo.step_at 55) in
  let s := Demo.start [] in
  let r1 := for_each_file default_config ["a.png"] (0, 0) (set_up default_config s) in
  let r2 := process_image default_config "b.png" (45, 1) (snd r1) in
  let failing := ["cwebp"; "-q"; "67"; "-m"; "6"; "images/b.png"; "-o";
                  "optimized_images/temp.webp"] in
  is_tool_installed (fs s) "cwebp" = true /\
  fst r1 = Return (45, 1) /\
  is_image_name "b.png" = true /\
  fst r2 = Raise (CalledProcessError 1 failing) /\
  auto_optimize_images default_config s = (Raise (CalledProcessError 1 failing), snd r2).
Proof.
  intros E s r1 r2 failing.
  split; [reflexivity|]. split; [vm_compute; reflexivity|].
  split; [vm_compute; reflexivity|]. split; [vm_compute; reflexivity|].
  apply (encoder_failure_stops_batch (H := E) default_config
           ["a.png"] ["c.png"] "b.png" s (snd r1) (snd r2) (45, 1)
           (CalledProcessError 1 failing)).
  - reflexivity.
  - reflexivity.
  - vm_compute. reflexivity.
  - vm_compute. reflexivity.
  - vm_compute. reflexivity.
Defined.

(** ** C4, C5, C7, C10: one image on the concrete world *)

(** C4 fails as stated.  When the encoder fails on [b.png], the only call
    made for that image is the first search call, at quality 67: the image
    ends with its [CalledProcessError] and no final call follows. *)
Lemma failed_search_call_has_no_final_call :
  let E := Demo.env [] (Demo.fails_on "images/b.png") Demo.no_file (Demo.step_at 55) in
  let r := process_image default_config "b.png" (0, 0) (Demo.start []) in
  let failing := search_cmd default_config 67 "images/b.png"
                            "optimized_images/temp.webp" in
  MIN_QUALITY default_config <= MAX_QUALITY default_config /\
  calls (snd r) = [failing] /\
  fst r = Raise (CalledProcessError 1 failing) /\
  forall best,
    ~ In (final_cmd default_config best "images/b.png" "optimized_images/b.webp")
         (calls (snd r)).
Proof.
  cbv zeta.
  assert (Hcalls :
    calls (snd (process_image
                  (H := Demo.env [] (Demo.fails_on "images/b.png") Demo.no_file
                                 (Demo.step_at 55))
                  default_config "b.png" (0, 0)
                  (Demo.start (H := Demo.env [] (Demo.fails_on "images/b.png")
                                             Demo.no_file (Demo.step_at 55)) []))) =
    [search_cmd default_config 67 "images/b.png" "optimized_images/temp.webp"]).
  { vm_compute. reflexivity. }
  split; [cbn; lia|]. split; [exact Hcalls|]. split; [vm_compute; reflexivity|].
  intros best Hin. rewrite Hcalls in Hin. destruct Hin as [Heq|[]].
  discriminate Heq.
Qed.

(** With the defaults and a working encoder: at most 7 search calls and
    the final one. *)
Lemma encoder_calls_bounded_witness :
  let E := Demo.scoring (Demo.step_at 55) in
  MIN_QUALITY default_config <= MAX_QUALITY default_config /\
  Nat.le (List.length (calls (snd (process_image default_config "a.png" (0, 0)
                                      (Demo.start [])))))
         8.
Proof.
  cbv zeta. split; [cbn; lia|].
  destruct (encoder_calls_bounded (H := Demo.scoring (Demo.step_at 55))
              default_config "a.png" (0, 0)
              (Demo.start (H := Demo.scoring (Demo.step_at 55)) []))
    as (_ & qs & Hlen & Hcases).
  - cbn. lia.
  - change (Z.log2_up (MAX_QUALITY default_config - MIN_QUALITY default_config + 1) + 1)
      with 7 in Hlen.
    destruct Hcases as [(scores & best & _ & Hcalls & _)
                       | (earlier & q & rc & w & -> & _ & _ & Hcalls & _)];
      rewrite Hcalls; cbn [Demo.start calls app];
      rewrite ?length_app, ?length_map in *; cbn [List.length] in *; lia.
Defined.


(** The calls for one image: search calls without filter flags, then the
    final call with them. *)
Lemma filters_on_final_pass_only_witness :
  let E := Demo.scoring (Demo.step_at 55) in
  let r := process_image default_config "a.png" (0, 0) (Demo.start []) in
  SOURCE_FOLDER default_config = "images" /\
  OUTPUT_FOLDER default_config = "optimized_images" /\
  exists searches final,
    calls (snd r) = searches ++ [final] /\
    forallb (fun cmd => negb (has_filter_flag cmd)) searches = true /\
    has_filter_flag final = true.
Proof.
  cbv zeta. split; [reflexivity|]. split; [reflexivity|].
  destruct (filters_on_final_pass_only (H := Demo.scoring (Demo.step_at 55))
              default_config "a.png" (0, 0)
              (Demo.start (H := Demo.scoring (Demo.step_at 55)) [])
              eq_refl eq_refl)
    as (qs & finals & Hcalls & Hsearch & Hfinals).
  destruct Hfinals as [(best & -> & _ & Hflag) | (_ & rc & q & _ & Hraise)].
  - eexists. eexists. split; [exact Hcalls|]. split; [|exact Hflag].
    cbn [Demo.start calls app]. apply forallb_forall.
    intros cmd Hin. apply in_map_iff in Hin. destruct Hin as (q & <- & _).
    destruct (Hsearch q) as [_ ->]. reflexivity.
  - exfalso. revert Hraise. vm_compute. discriminate.
Defined.

(** With the defaults, the quality found lies between 40 and 95. *)
Lemma search_stays_in_range_witness :
  let E := Demo.scoring (Demo.step_at 55) in
  let r := quality_search default_config "images/a.png"
             "optimized_images/temp.webp" (Demo.start []) in
  MIN_QUALITY default_config <= MAX_QUALITY default_config /\
  exists best, fst r = Return best /\ 40 <= best <= 95.
Proof.
  cbv zeta. split; [cbn; lia|].
  destruct (search_stays_in_range (H := Demo.scoring (Demo.step_at 55))
              default_config "images/a.png" "optimized_images/temp.webp"
              (Demo.start (H := Demo.scoring (Demo.step_at 55)) []))
    as (scores & out & _ & _ & _ & _ & _ & Hbest).
  exists 55. split; [vm_compute; reflexivity|].
  apply Hbest; [cbn; lia|]. vm_compute. reflexivity.
Defined.

(** ** C2, C6, C8: the evaluation on single-colour and unreadable images *)

(** The evaluation of an 8x8 image of one grey level against an encoding
    of the same kind: no step raises, the data range is 0 and the score is
    the library's NaN. *)
Lemma flat_grey_score :
  calculate_ssim (H := Flat.env) Flat.files "images/grey.png"
                 "optimized_images/temp.webp" = (S754_nan, []).
Proof. reflexivity. Qed.


(** C6 fails as stated: for this degenerate candidate the score is not 0
    and no warning is printed.  (The NaN does not meet the target
    either.) *)
Lemma degenerate_image_is_no_failure :
  let E := Flat.env in
  let result := calculate_ssim Flat.files "images/grey.png"
                               "optimized_images/temp.webp" in
  array_max (Flat.square 8) = array_min (Flat.square 8) /\
  fst result = S754_nan /\
  fst result <> float_zero /\
  snd result = [] /\
  good_enough default_config (fst result) = false.
Proof.
  cbv zeta. rewrite flat_grey_score. cbn [fst snd].
  split; [reflexivity|]. split; [reflexivity|]. split; [discriminate|].
  split; reflexivity.
Qed.

(** C8 fails as stated: two identical 3x3 images score 0, because the
    library raises on images smaller than its window, and two identical
    8x8 images of one grey level score NaN; neither score is at least
    0.999. *)
Lemma identical_images_can_score_below_0_999 :
  let E := Flat.env in
  let tiny := calculate_ssim Flat.files "images/tiny.png" "images/tiny_copy.png" in
  let grey := calculate_ssim Flat.files "images/grey.png" "images/grey_copy.png" in
  Image_open Flat.files "images/tiny.png" = Image_open Flat.files "images/tiny_copy.png" /\
  Image_open Flat.files "images/grey.png" = Image_open Flat.files "images/grey_copy.png" /\
  tiny = (float_zero, [PrintWarning (Flat.ValueError "win_size exceeds image extent")]) /\
  float_ge (fst tiny) float_0_999 = false /\
  grey = (S754_nan, []) /\
  float_ge (fst grey) float_0_999 = false.
Proof.
  cbv zeta. split; [reflexivity|]. split; [reflexivity|].
  split; [reflexivity|]. split; [reflexivity|]. split; reflexivity.
Qed.

(** The candidate file cannot be opened in the first iteration of a search
    with the defaults: the score is 0, with a warning, the search goes on
    above quality 67. *)
Lemma evaluation_failure_scores_zero_witness :
  let temp_path := "optimized_images/temp.webp" in
  let E := Demo.env [] Demo.always_ok (Demo.only temp_path) (Demo.step_at 55) in
  let st := initial_state default_config in
  let cmd := search_cmd default_config 67 "images/a.png" temp_path in
  let w' := [(temp_path, 67)] in
  looping st = true /\
  run_process cmd [] = (0, w') /\
  raised w' "images/a.png" temp_path (Demo.FileNotFoundError temp_path) /\
  calculate_ssim w' "images/a.png" temp_path =
    (float_zero, [PrintWarning (Demo.FileNotFoundError temp_path)]) /\
  decide default_config st float_zero =
    {| low := 68; high := 95; best_quality := 95 |}.
Proof.
  cbv zeta.
  assert (Hraised :
    raised (H := Demo.env [] Demo.always_ok (Demo.only "optimized_images/temp.webp")
                          (Demo.step_at 55))
           [("optimized_images/temp.webp", 67)] "images/a.png"
           "optimized_images/temp.webp"
           (Demo.FileNotFoundError "optimized_images/temp.webp")).
  { apply (raised_open2 (H := Demo.env [] Demo.always_ok
                                      (Demo.only "optimized_images/temp.webp")
                                      (Demo.step_at 55)) _ _ _ 100).
    - exists 100. split; reflexivity.
    - reflexivity. }
  destruct (evaluation_failure_scores_zero
              (H := Demo.env [] Demo.always_ok
                             (Demo.only "optimized_images/temp.webp")
                             (Demo.step_at 55))
              default_config 0 "images/a.png" "optimized_images/temp.webp"
              (initial_state default_config)
              (Demo.start (H := Demo.env [] Demo.always_ok
                                         (Demo.only "optimized_images/temp.webp")
                                         (Demo.step_at 55)) [])
              [("optimized_images/temp.webp", 67)]
              (Demo.FileNotFoundError "optimized_images/temp.webp")
              eq_refl eq_refl Hraised)
    as (Hzero & _ & Hdecide & _).
  split; [reflexivity|]. split; [reflexivity|]. split; [exact Hraised|].
  split; [exact Hzero|]. exact (Hdecide eq_refl).
Defined.

(** Two identical 3x3 images: the library raises, the score is 0. *)
Lemma identical_images_score_witness :
  let E := Flat.env in
  let tiny := Flat.square 3 in
  loaded Flat.files "images/tiny.png" tiny /\
  loaded Flat.files "images/tiny_copy.png" tiny /\
  np_array tiny = inr tiny /\
  array_max tiny = inr 128 /\
  array_min tiny = inr 128 /\
  calculate_ssim Flat.files "images/tiny.png" "images/tiny_copy.png" =
    (float_zero, [PrintWarning (Flat.ValueError "win_size exceeds image extent")]).
Proof.
  cbv zeta.
  assert (H1 : loaded (H := Flat.env) Flat.files "images/tiny.png" (Flat.square 3))
    by (exists (Flat.square 3); split; reflexivity).
  assert (H2 : loaded (H := Flat.env) Flat.files "images/tiny_copy.png" (Flat.square 3))
    by (exists (Flat.square 3); split; reflexivity).
  split; [exact H1|]. split; [exact H2|].
  split; [reflexivity|]. split; [reflexivity|]. split; [reflexivity|].
  destruct (identical_images_score (H := Flat.env) Flat.files
              "images/tiny.png" "images/tiny_copy.png" (Flat.square 3)
              (Flat.square 3) 128 128 H1 H2 eq_refl eq_refl eq_refl)
    as [Hresult _].
  exact Hresult.
Defined.

(** * Further properties of the search *)

Section Search.

Context `{Environment}.
Variable cfg : config.

(** ** An empty range *)

(** X1.  With [MAX_QUALITY < MIN_QUALITY] the loop is never entered: the search
    returns [MAX_QUALITY] at once, and the only encoder call for the image
    is the final one, at [MAX_QUALITY]. *)
Theorem empty_range_skips_search (filename : string) (totals : Z * Z) (s : state) :
  MAX_QUALITY cfg < MIN_QUALITY cfg ->
  let input_path := input_path_of cfg filename in
  let temp_path := temp_path_of cfg in
  let output_path := output_path_of cfg filename in
  quality_search cfg input_path temp_path (announced filename s) =
    (Return (MAX_QUALITY cfg), announced filename s) /\
  calls (snd (process_image cfg filename totals s)) =
    calls s ++ [final_cmd cfg (MAX_QUALITY cfg) input_path output_path].
Proof.
  intros Hempty input_path temp_path output_path.
  assert (Hqs : quality_search cfg input_path temp_path (announced filename s) =
                (Return (MAX_QUALITY cfg), announced filename s)).
  { rewrite quality_search_unfold.
    rewrite while_search_done; [reflexivity|].
    apply not_looping_spec. exact Hempty. }
  split; [exact Hqs|].
  destruct (process_image_calls cfg filename totals s)
    as (scores & out & s1 & _ & Hqs' & Hcase).
  fold input_path temp_path output_path in Hqs', Hcase.
  rewrite Hqs in Hqs'.
  destruct out as [st|e|]; cbn [best_of] in Hqs'; try discriminate.
  injection Hqs' as Hbest <-. rewrite <- Hbest in Hcase.
  destruct Hcase as (Hcalls & _). exact Hcalls.
Qed.

(** ** How many qualities a completed search tests *)

Lemma decide_keeps_half (st : SearchState) (score : pyfloat) :
  low st <= high st ->
  high st - low st + 1 <=
  2 * (high (decide cfg st score) - low (decide cfg st score) + 2).
Proof.
  intros Hle.
  assert (Hm : 2 * quality_of st <= low st + high st < 2 * quality_of st + 2).
  { unfold quality_of.
    pose proof (Z.div_mod (low st + high st) 2 ltac:(lia)) as Hd.
    pose proof (Z.mod_pos_bound (low st + high st) 2 ltac:(lia)). lia. }
  unfold decide. destruct (good_enough cfg score); cbn [low high]; lia.
Qed.

(** An interval of at least [2^k - 1] qualities is not exhausted before [k]
    iterations. *)
Lemma iterations_above_power :
  forall (scores : list pyfloat) (st : SearchState) (k : Z),
    0 <= k ->
    entered cfg st scores ->
    looping (replay cfg st scores) = false ->
    2 ^ k <= high st - low st + 2 ->
    k <= Z.of_nat (List.length scores).
Proof.
  induction scores as [|score scores IH]; intros st k Hk Hent Hend Hsize.
  - cbn [replay] in Hend. apply not_looping_spec in Hend. cbn [List.length].
    destruct (Z.eq_dec k 0) as [->|Hk0]; [cbn; lia|].
    assert (2 ^ 1 <= 2 ^ k) by (apply Z.pow_le_mono_r; lia).
    change (2 ^ 1) with 2 in *. lia.
  - apply entered_cons in Hent. destruct Hent as [Hle Hent].
    cbn [replay] in Hend. cbn [List.length].
    destruct (Z.eq_dec k 0) as [->|Hk0]; [lia|].
    pose proof (decide_keeps_half st score Hle) as Hhalf.
    assert (Hpow : 2 ^ k = 2 * 2 ^ (k - 1)).
    { rewrite <- Z.pow_succ_r by lia. f_equal. lia. }
    specialize (IH (decide cfg st score) (k - 1) ltac:(lia) Hent Hend ltac:(lia)).
    lia.
Qed.

(** X2.  A search over [n = MAX_QUALITY - MIN_QUALITY + 1 >= 1] qualities that
    runs to its end makes at least [floor(log2(n + 1))] and at most
    [floor(log2(n)) + 1] encoder calls, whatever the scores are. *)
Theorem completed_search_call_count (input_path temp_path : string) (s : state)
        (best : Z) :
  MIN_QUALITY cfg <= MAX_QUALITY cfg ->
  fst (quality_search cfg input_path temp_path s) = Return best ->
  let n := MAX_QUALITY cfg - MIN_QUALITY cfg + 1 in
  exists qs,
    calls (snd (quality_search cfg input_path temp_path s)) =
      calls s ++ map (fun q => search_cmd cfg q input_path temp_path) qs /\
    Z.log2 (n + 1) <= Z.of_nat (List.length qs) <= Z.log2 n + 1.
Proof.
  intros Hrange Hret n.
  destruct (quality_search_run cfg input_path temp_path s)
    as (scores & out & Hrun & Hout).
  rewrite Hout in Hret.
  destruct out as [st|e|]; cbn [best_of] in Hret; try discriminate.
  destruct Hrun as (Hent & _ & _ & (-> & Hend & Hcalls)).
  exists (tested cfg (initial_state cfg) scores). split; [exact Hcalls|].
  rewrite tested_length. split.
  - apply (iterations_above_power scores (initial_state cfg)); auto.
    + apply Z.log2_nonneg.
    + pose proof (Z.log2_spec (n + 1) ltac:(unfold n; lia)) as [Hlo _].
      cbn [initial_state low high]. unfold n in *. lia.
  - pose proof (Z.log2_spec n ltac:(unfold n; lia)) as [_ Hup].
    pose proof (Z.log2_nonneg n).
    pose proof (iterations_below_power cfg scores (initial_state cfg)
                  (Z.succ (Z.log2 n)) ltac:(lia) Hent Hup).
    lia.
Qed.

End Search.

Section Tests.

Context `{Environment}.
Variable cfg : config.

(** ** The order of the tested qualities *)

Lemma tested_between (scores : list pyfloat) (st : SearchState) (q : Z) :
  entered cfg st scores ->
  In q (tested cfg st scores) ->
  low st <= q <= high st.
Proof.
  intros Hent Hin.
  destruct (trajectory_in_range cfg (low st) (high st) scores st
              (Z.le_refl _) (Z.le_refl _) Hent) as (Hall & _).
  rewrite Forall_forall in Hall.
  unfold tested in Hin. apply in_map_iff in Hin. destruct Hin as (st' & <- & Hst').
  specialize (Hall st' Hst'). lia.
Qed.

(** What is tested after an iteration lies on the side the iteration chose. *)
Lemma tested_after (score : pyfloat) (scores : list pyfloat) (st : SearchState)
      (q : Z) :
  entered cfg st (score :: scores) ->
  In q (tested cfg (decide cfg st score) scores) ->
  if good_enough cfg score then q < quality_of st else quality_of st < q.
Proof.
  intros Hent Hin. apply entered_cons in Hent. destruct Hent as [Hle Hent].
  pose proof (tested_between scores (decide cfg st score) q Hent Hin) as Hq.
  unfold decide in Hq. destruct (good_enough cfg score); cbn [low high] in Hq; lia.
Qed.

Lemma tests_move_away :
  forall (scores : list pyfloat) (st : SearchState),
    entered cfg st scores ->
    ForallOrdPairs (moves_away cfg) (combine (tested cfg st scores) scores).
Proof.
  induction scores as [|score scores IH]; intros st Hent.
  - constructor.
  - unfold tested. cbn [trajectory map combine]. constructor.
    + apply Forall_forall. intros [q score'] Hin.
      apply in_combine_l in Hin.
      pose proof (tested_after score scores st q Hent Hin) as Hside.
      unfold moves_away. cbn [fst snd]. exact Hside.
    + apply IH. apply entered_cons in Hent. apply Hent.
Qed.

Lemma tested_NoDup :
  forall (scores : list pyfloat) (st : SearchState),
    entered cfg st scores ->
    NoDup (tested cfg st scores).
Proof.
  induction scores as [|score scores IH]; intros st Hent.
  - constructor.
  - unfold tested. cbn [trajectory map]. constructor.
    + intros Hin. pose proof (tested_after score scores st _ Hent Hin) as Hside.
      destruct (good_enough cfg score); lia.
    + apply IH. apply entered_cons in Hent. apply Hent.
Qed.

(** X3.  In one search no quality is encoded twice: after a score that met the
    target every later test is at a lower quality, after a score that did
    not, at a higher one.  This holds for any scores, monotone in the
    quality or not. *)
Theorem search_never_repeats_a_quality (input_path temp_path : string) (s : state) :
  exists scores out,
    search_run cfg input_path temp_path (initial_state cfg) s scores out
      (snd (quality_search cfg input_path temp_path s)) /\
    ForallOrdPairs (moves_away cfg)
      (combine (tested cfg (initial_state cfg) scores) scores) /\
    NoDup (tested cfg (initial_state cfg) scores).
Proof.
  destruct (quality_search_run cfg input_path temp_path s)
    as (scores & out & Hrun & _).
  exists scores, out. split; [exact Hrun|].
  destruct Hrun as (Hent & _).
  split; [apply tests_move_away | apply tested_NoDup]; exact Hent.
Qed.

(** ** The quality that is returned *)

Lemma last_cons_any {A : Type} (l : list A) (a d d' : A) :
  last (a :: l) d = last (a :: l) d'.
Proof.
  revert a. induction l as [|b l IH]; intros a; [reflexivity|].
  change (last (b :: l) d = last (b :: l) d'). apply IH.
Qed.

Lemma last_cons_shift {A : Type} (l : list A) (a d : A) :
  last (a :: l) d = last l a.
Proof.
  destruct l as [|b l]; [reflexivity|].
  change (last (b :: l) d = last (b :: l) a). apply last_cons_any.
Qed.

Lemma accepted_tests_tested (scores : list pyfloat) (st : SearchState) (q : Z) :
  In q (accepted_tests cfg (combine (tested cfg st scores) scores)) ->
  In q (tested cfg st scores).
Proof.
  unfold accepted_tests. intros Hin.
  apply in_map_iff in Hin. destruct Hin as ([q' score] & <- & Hin).
  apply filter_In in Hin. destruct Hin as [Hin _].
  apply in_combine_l in Hin. exact Hin.
Qed.

Lemma replay_best_accepted :
  forall (scores : list pyfloat) (st : SearchState),
    entered cfg st scores ->
    let accepted := accepted_tests cfg (combine (tested cfg st scores) scores) in
    best_quality (replay cfg st scores) = last accepted (best_quality st) /\
    Forall (fun q => best_quality (replay cfg st scores) <= q) accepted.
Proof.
  induction scores as [|score scores IH]; intros st Hent.
  - cbn. split; [reflexivity | constructor].
  - pose proof Hent as Hent0.
    apply entered_cons in Hent. destruct Hent as [Hle Hent].
    specialize (IH (decide cfg st score) Hent). cbv zeta in IH.
    destruct IH as [IHbest IHall].
    unfold tested. cbn [trajectory map combine replay]. fold (tested cfg (decide cfg st score) scores).
    unfold accepted_tests. cbn [filter snd].
    destruct (good_enough cfg score) eqn:Hgood.
    + cbn [map fst]. fold (accepted_tests cfg (combine (tested cfg (decide cfg st score) scores) scores)).
      rewrite last_cons_shift. split.
      * rewrite IHbest. rewrite decide_good by exact Hgood. reflexivity.
      * constructor; [|exact IHall].
        destruct (replay_best cfg scores (decide cfg st score)) as [Heq|Hin].
        -- rewrite Heq. rewrite decide_good by exact Hgood. cbn. lia.
        -- pose proof (tested_after score scores st _ Hent0 Hin) as Hside.
           rewrite Hgood in Hside. lia.
    + fold (accepted_tests cfg (combine (tested cfg (decide cfg st score) scores) scores)).
      split; [|exact IHall].
      rewrite IHbest. rewrite decide_bad by exact Hgood. reflexivity.
Qed.

(** X4.  Whatever the scores are, the [best_quality] a search returns is the
    last, and the smallest, of the tested qualities whose score met the
    target; it is [MAX_QUALITY] when no score did. *)
Theorem search_returns_smallest_accepted_test (input_path temp_path : string)
        (s : state) :
  exists scores out,
    search_run cfg input_path temp_path (initial_state cfg) s scores out
      (snd (quality_search cfg input_path temp_path s)) /\
    let accepted :=
      accepted_tests cfg (combine (tested cfg (initial_state cfg) scores) scores) in
    forall best,
      fst (quality_search cfg input_path temp_path s) = Return best ->
      best = last accepted (MAX_QUALITY cfg) /\
      Forall (fun q => best <= q) accepted /\
      (accepted = [] -> best = MAX_QUALITY cfg) /\
      (accepted <> [] -> In best accepted).
Proof.
  destruct (quality_search_run cfg input_path temp_path s)
    as (scores & out & Hrun & Hout).
  exists scores, out. split; [exact Hrun|].
  intros accepted best Hbest. rewrite Hout in Hbest.
  destruct out as [st|e|]; cbn [best_of] in Hbest; try discriminate.
  injection Hbest as <-.
  destruct Hrun as (Hent & _ & _ & (-> & _)).
  destruct (replay_best_accepted scores (initial_state cfg) Hent) as [Hlast Hall].
  fold accepted in Hlast, Hall. cbn [initial_state best_quality] in Hlast.
  split; [exact Hlast|]. split; [exact Hall|]. split.
  - intros Hnil. rewrite Hlast, Hnil. reflexivity.
  - intros Hsome. rewrite Hlast.
    destruct accepted as [|q accepted']; [congruence|].
    rewrite (last_cons_any accepted' q (MAX_QUALITY cfg) q).
    destruct (exists_last (l := q :: accepted') ltac:(discriminate)) as (l' & a & Heq).
    rewrite Heq, last_last. apply in_or_app. right. left. reflexivity.
Qed.

End Tests.

(** * Further properties of the batch *)

Section Batch.

Context `{Environment}.
Variable cfg : config.

(** ** A missing encoder *)

(** X5.  When [cwebp] is not on the path the script prints its error message and
    returns: no folder is created, no file is listed and no process is
    started. *)
Theorem missing_tool_runs_nothing (s : state) :
  which (fs s) "cwebp" = None ->
  auto_optimize_images cfg s =
  (Return tt,
   {| fs := fs s; calls := calls s; stdout := stdout s ++ [PrintToolMissing] |}).
Proof.
  intros Hnone. unfold auto_optimize_images.
  erewrite bind_Return
    by (unfold read, is_tool_installed; rewrite Hnone; reflexivity).
  reflexivity.
Qed.

(** ** Files that are not images *)

Lemma for_each_file_filter :
  forall (filenames : list string) (totals : Z * Z) (s : state),
    for_each_file cfg filenames totals s =
    for_each_file cfg (filter is_image_name filenames) totals s.
Proof.
  induction filenames as [|filename rest IH]; intros totals s; [reflexivity|].
  cbn [filter]. destruct (is_image_name filename) eqn:Himg.
  - cbn [for_each_file]. rewrite Himg. cbn [negb].
    unfold bind. destruct (process_image cfg filename totals s) as [[t|e|] s'];
      [apply IH | reflexivity | reflexivity].
  - rewrite for_each_file_skip by exact Himg. apply IH.
Qed.

(** X6.  The files whose name does not end in [.png], [.jpg] or [.jpeg] have no
    effect on the run: the loop over a listing does what the loop over its
    image names does; and over a listing without image names it does
    nothing at all. *)
Theorem other_files_are_ignored (filenames : list string) (totals : Z * Z)
        (s : state) :
  for_each_file cfg filenames totals s =
    for_each_file cfg (filter is_image_name filenames) totals s /\
  (filter is_image_name filenames = [] ->
   for_each_file cfg filenames totals s = (Return totals, s)).
Proof.
  split; [apply for_each_file_filter|].
  intros Hnone. rewrite for_each_file_filter, Hnone. reflexivity.
Qed.

(** X7.  With the encoder installed and no image name in the source folder, the
    script only prints its banner and the "no images" line: it returns
    normally and starts no process. *)
Theorem folder_without_images (s : state) :
  is_tool_installed (fs s) "cwebp" = true ->
  filter is_image_name (listdir (fs (set_up cfg s)) (SOURCE_FOLDER cfg)) = [] ->
  auto_optimize_images cfg s =
  (Return tt,
   {| fs := fs (set_up cfg s); calls := calls s;
      stdout := stdout s ++ [PrintToolFound (TARGET_SSIM cfg); PrintNoImages] |}).
Proof.
  intros Hinst Hnone.
  rewrite auto_optimize_images_unfold by exact Hinst.
  rewrite for_each_file_filter, Hnone. cbn [for_each_file]. unfold ret, print.
  cbn [Z.gtb Z.compare set_up fs calls stdout].
  rewrite <- app_assoc. reflexivity.
Qed.

(** ** Counting the images *)

Lemma process_image_counts (filename : string) (totals totals' : Z * Z)
      (s s' : state) :
  process_image cfg filename totals s = (Return totals', s') ->
  snd totals' = snd totals + 1.
Proof.
  intros Hp.
  destruct (process_image_calls cfg filename totals s)
    as (scores & out & s1 & Hrun & _ & Hcase).
  rewrite Hp in Hcase. cbn [fst snd] in Hcase.
  destruct out as [st|e|]; [|discriminate|contradiction].
  destruct Hcase as (_ & Hok & Hbad).
  set (final := final_cmd cfg (best_quality st) (input_path_of cfg filename)
                          (output_path_of cfg filename)) in *.
  destruct (Z.eq_dec (fst (run_process final (fs s1))) 0) as [H0|H0].
  - specialize (Hok _ eq_refl H0). unfold accounted in Hok.
    destruct (getsize (fs s') (input_path_of cfg filename));
      [destruct (getsize (fs s') (output_path_of cfg filename))|];
      try discriminate.
    injection Hok as ->. reflexivity.
  - specialize (Hbad _ eq_refl H0). discriminate.
Qed.

Lemma for_each_file_counts :
  forall (filenames : list string) (totals totals' : Z * Z) (s s' : state),
    for_each_file cfg filenames totals s = (Return totals', s') ->
    snd totals' =
    snd totals + Z.of_nat (List.length (filter is_image_name filenames)).
Proof.
  induction filenames as [|filename rest IH]; intros totals totals' s s' Hloop.
  - cbn in Hloop. injection Hloop as <- <-. cbn. lia.
  - cbn [filter]. destruct (is_image_name filename) eqn:Himg.
    + cbn [for_each_file] in Hloop. rewrite Himg in Hloop. cbn [negb] in Hloop.
      unfold bind in Hloop.
      destruct (process_image cfg filename totals s) as [[t|e|] s1] eqn:Hp;
        try discriminate.
      apply IH in Hloop. apply process_image_counts in Hp.
      cbn [List.length]. lia.
    + rewrite for_each_file_skip in Hloop by exact Himg.
      apply IH in Hloop. exact Hloop.
Qed.

(** X8.  When the script runs to its end, the last line it prints reports the
    number of image names in the listing of the source folder: the summary
    with that count, or the "no images" line when the count is 0. *)
Theorem batch_reports_image_count (s s' : state) :
  is_tool_installed (fs s) "cwebp" = true ->
  auto_optimize_images cfg s = (Return tt, s') ->
  let filenames := listdir (fs (set_up cfg s)) (SOURCE_FOLDER cfg) in
  let n := Z.of_nat (List.length (filter is_image_name filenames)) in
  exists total s1,
    for_each_file cfg filenames (0, 0) (set_up cfg s) = (Return (total, n), s1) /\
    stdout s' = stdout s1 ++ [if n >? 0 then PrintSummary n total
                              else PrintNoImages].
Proof.
  intros Hinst Hrun filenames n.
  rewrite auto_optimize_images_unfold in Hrun by exact Hinst.
  fold filenames in Hrun.
  destruct (for_each_file cfg filenames (0, 0) (set_up cfg s))
    as [[[total count]|e|] s1] eqn:Hloop; try discriminate.
  pose proof (for_each_file_counts _ _ _ _ _ Hloop) as Hcount.
  cbn [snd] in Hcount. rewrite Z.add_0_l in Hcount. fold n in Hcount. subst count.
  exists total, s1. split; [reflexivity|].
  unfold print in Hrun. injection Hrun as <-. reflexivity.
Qed.

(** ** The encoder calls of a batch *)

Lemma process_image_adds_calls (filename : string) (totals : Z * Z) (s : state) :
  MIN_QUALITY cfg <= MAX_QUALITY cfg ->
  exists added,
    calls (snd (process_image cfg filename totals s)) = calls s ++ added /\
    Z.of_nat (List.length added) <=
      Z.log2_up (MAX_QUALITY cfg - MIN_QUALITY cfg + 1) + 2.
Proof.
  intros Hrange.
  destruct (process_image_calls cfg filename totals s)
    as (scores & out & s1 & Hrun & _ & Hcase).
  destruct Hrun as (Hent & _ & _ & Hres).
  assert (Hinit : low (initial_state cfg) <= high (initial_state cfg)) by exact Hrange.
  destruct out as [st|e|]; [| |contradiction].
  - destruct Hres as (_ & _ & Hcalls). destruct Hcase as (Hfinal & _).
    eexists. split.
    { rewrite Hfinal, Hcalls. cbn [announced calls].
      rewrite <- app_assoc. reflexivity. }
    rewrite length_app, length_map, tested_length. cbn [List.length].
    pose proof (iterations_bound cfg scores (initial_state cfg) Hinit Hent) as Hb.
    cbn [initial_state low high] in Hb. lia.
  - destruct Hres as (Hl & _ & Hcalls).
    eexists. split.
    { rewrite Hcase. cbn [snd]. rewrite Hcalls. cbn [announced calls]. reflexivity. }
    rewrite length_app, length_map, tested_length. cbn [List.length].
    pose proof (iterations_bound cfg (scores ++ [float_zero]) (initial_state cfg) Hinit
                  (entered_snoc cfg float_zero scores _ Hent Hl)) as Hb.
    rewrite length_app in Hb. cbn [List.length initial_state low high] in Hb. lia.
Qed.

(** X9.  A batch only adds encoder calls to those made before, and at most
    [ceil(log2(MAX_QUALITY - MIN_QUALITY + 1)) + 2] of them for every image
    name in the listing, whether it runs to its end or stops at a failing
    call. *)
Theorem batch_calls_bounded (filenames : list string) :
  MIN_QUALITY cfg <= MAX_QUALITY cfg ->
  forall (totals : Z * Z) (s : state),
  exists added,
    calls (snd (for_each_file cfg filenames totals s)) = calls s ++ added /\
    Z.of_nat (List.length added) <=
      Z.of_nat (List.length (filter is_image_name filenames)) *
      (Z.log2_up (MAX_QUALITY cfg - MIN_QUALITY cfg + 1) + 2).
Proof.
  intros Hrange.
  pose proof (Z.log2_up_nonneg (MAX_QUALITY cfg - MIN_QUALITY cfg + 1)) as Hnn.
  induction filenames as [|filename rest IH]; intros totals s.
  - exists []. cbn. rewrite app_nil_r. split; [reflexivity | lia].
  - cbn [filter]. destruct (is_image_name filename) eqn:Himg.
    + destruct (process_image_adds_calls filename totals s Hrange)
        as (added1 & Hcalls1 & Hlen1).
      destruct (process_image cfg filename totals s) as [[t|e|] s1] eqn:Hp.
      * rewrite (for_each_file_next cfg filename rest totals t s s1 Himg Hp).
        destruct (IH t s1) as (added2 & Hcalls2 & Hlen2).
        exists (added1 ++ added2). split.
        -- rewrite Hcalls2. cbn [snd] in Hcalls1. rewrite Hcalls1.
           rewrite <- app_assoc. reflexivity.
        -- rewrite length_app. cbn [List.length]. lia.
      * rewrite (for_each_file_raise cfg filename rest totals s s1 e Himg Hp).
        exists added1. split; [exact Hcalls1|]. cbn [List.length]. nia.
      * exfalso.
        destruct (process_image_calls cfg filename totals s)
          as (scores & out & s' & Hrun & _ & Hcase).
        rewrite Hp in Hcase. cbn [fst snd] in Hcase.
        destruct out as [st|e|].
        -- destruct Hcase as (_ & Hok & Hbad).
           destruct (Z.eq_dec (fst (run_process
                       (final_cmd cfg (best_quality st) (input_path_of cfg filename)
                                  (output_path_of cfg filename)) (fs s'))) 0) as [H0|H0].
           ++ specialize (Hok _ eq_refl H0).
              exact (accounted_in_fuel _ _ _ _ _ (eq_sym Hok)).
           ++ specialize (Hbad _ eq_refl H0). discriminate.
        -- discriminate.
        -- destruct Hrun as (_ & _ & _ & []).
    + rewrite for_each_file_skip by exact Himg. apply IH.
Qed.

End Batch.

(** * The temporary file and unreadable images *)

Section Files.

Context `{Environment}.
Variable cfg : config.

(** ** Cleaning up (lines 102-107) *)

(** The file system that [process_image] leaves behind once the search has
    returned: after a final encode with status 0 the temporary file is
    removed if it is there; after a failing one nothing else happens. *)
Lemma process_image_fs (filename : string) (totals : Z * Z) (s s1 : state)
      (best : Z) :
  let input_path := input_path_of cfg filename in
  let temp_path := temp_path_of cfg in
  let final := final_cmd cfg best input_path (output_path_of cfg filename) in
  let after := snd (run_process final (fs s1)) in
  quality_search cfg input_path temp_path (announced filename s) = (Return best, s1) ->
  fs (snd (process_image cfg filename totals s)) =
  if fst (run_process final (fs s1)) =? 0
  then if path_exists after temp_path then remove temp_path after else after
  else after.
Proof.
  intros input_path temp_path final after Hqs.
  unfold process_image. destruct totals as [total_savings image_count].
  fold input_path temp_path.
  erewrite bind_Return by reflexivity. fold (announced filename s).
  erewrite bind_Return by exact Hqs.
  erewrite bind_Return by reflexivity. fold final.
  subst after. destruct (run_process final (fs s1)) as [rc w'] eqn:Hfinal.
  cbn [fst snd]. destruct (Z.eq_dec rc 0) as [->|Hrc].
  - erewrite bind_Return by (apply subprocess_run_check_ok; exact Hfinal).
    unfold bind, read, update, ret, print, os_path_getsize.
    cbn [fs calls stdout Z.eqb].
    destruct (path_exists w' temp_path);
      repeat (cbn [fs calls stdout];
              match goal with
              | |- context [match getsize ?w ?p with _ => _ end] =>
                  destruct (getsize w p)
              end);
      reflexivity.
  - erewrite bind_Raise by (apply subprocess_run_check_fails; eassumption).
    apply Z.eqb_neq in Hrc. rewrite Hrc. reflexivity.
Qed.

(** X10.  On a file system where a removed file is gone: when the search has
    returned and the final encode exits with status 0, the temporary file
    no longer exists after the image is processed.  When the final encode
    fails, no cleanup takes place: the file system is left as the encoder
    left it, temporary file included. *)
Theorem temp_file_removed_after_final_encode (filename : string)
        (totals : Z * Z) (s s1 : state) (best : Z) :
  (forall w p, path_exists (remove p w) p = false) ->
  let input_path := input_path_of cfg filename in
  let temp_path := temp_path_of cfg in
  let final := final_cmd cfg best input_path (output_path_of cfg filename) in
  let r := process_image cfg filename totals s in
  quality_search cfg input_path temp_path (announced filename s) = (Return best, s1) ->
  (fst (run_process final (fs s1)) = 0 ->
   path_exists (fs (snd r)) temp_path = false) /\
  (fst (run_process final (fs s1)) <> 0 ->
   fs (snd r) = snd (run_process final (fs s1))).
Proof.
  intros Hremove input_path temp_path final r Hqs.
  pose proof (process_image_fs filename totals s s1 best Hqs) as Hfs.
  cbv zeta in Hfs. fold input_path temp_path final r in Hfs.
  split; intros Hrc.
  - rewrite Hfs, Hrc. cbn [Z.eqb].
    destruct (path_exists (snd (run_process final (fs s1))) temp_path) eqn:Hthere;
      [apply Hremove | exact Hthere].
  - rewrite Hfs. apply Z.eqb_neq in Hrc. rewrite Hrc. reflexivity.
Qed.

(** X11.  An image whose name has the root [temp] is written to the path of the
    temporary file, so the cleanup that follows a successful final encode
    deletes the image that was just produced. *)
Theorem image_named_temp_is_deleted (filename : string) (totals : Z * Z)
        (s s1 : state) (best : Z) :
  (forall w p, path_exists (remove p w) p = false) ->
  splitext_root filename = "temp" ->
  let input_path := input_path_of cfg filename in
  let output_path := output_path_of cfg filename in
  let final := final_cmd cfg best input_path output_path in
  quality_search cfg input_path (temp_path_of cfg) (announced filename s) =
    (Return best, s1) ->
  fst (run_process final (fs s1)) = 0 ->
  output_path = temp_path_of cfg /\
  path_exists (fs (snd (process_image cfg filename totals s))) output_path = false.
Proof.
  intros Hremove Hroot input_path output_path final Hqs Hrc.
  assert (Hsame : output_path = temp_path_of cfg).
  { subst output_path. unfold output_path_of, temp_path_of. rewrite Hroot.
    reflexivity. }
  split; [exact Hsame|].
  pose proof (process_image_fs filename totals s s1 best Hqs) as Hfs.
  cbv zeta in Hfs. fold input_path output_path final in Hfs.
  rewrite Hfs, Hrc. cbn [Z.eqb]. rewrite Hsame.
  destruct (path_exists (snd (run_process final (fs s1))) (temp_path_of cfg))
    eqn:Hthere; [apply Hremove | exact Hthere].
Qed.

(** X15.  For an image whose name has the root [temp] the script does not
    get further: once the encoder has written the output and the cleanup
    has removed it, [os.path.getsize(output_path)] on line 110 raises, and
    the image ends with that [OSError] instead of being counted. *)
Theorem image_named_temp_raises (filename : string) (totals : Z * Z)
        (s s1 : state) (best original_size : Z) :
  let input_path := input_path_of cfg filename in
  let output_path := output_path_of cfg filename in
  let temp_path := temp_path_of cfg in
  let final := final_cmd cfg best input_path output_path in
  let after := snd (run_process final (fs s1)) in
  splitext_root filename = "temp" ->
  quality_search cfg input_path temp_path (announced filename s) = (Return best, s1) ->
  fst (run_process final (fs s1)) = 0 ->
  path_exists after temp_path = true ->
  getsize (remove temp_path after) input_path = Some original_size ->
  getsize (remove temp_path after) temp_path = None ->
  fst (process_image cfg filename totals s) = Raise (OSError output_path).
Proof.
  intros input_path output_path temp_path final after Hroot Hqs Hrc Hthere
         Hinput Hgone.
  assert (Hsame : output_path = temp_path).
  { subst output_path temp_path. unfold output_path_of, temp_path_of.
    rewrite Hroot. reflexivity. }
  pose proof (process_image_fs filename totals s s1 best Hqs) as Hfs.
  cbv zeta in Hfs. fold input_path output_path temp_path final after in Hfs.
  rewrite Hrc, Hthere in Hfs. cbn [Z.eqb] in Hfs.
  destruct (process_image_calls cfg filename totals s)
    as (scores & out & s1' & _ & Hqs' & Hcase).
  fold input_path output_path temp_path in Hqs', Hcase.
  rewrite Hqs in Hqs'.
  destruct out as [st|e|]; cbn [best_of] in Hqs'; try discriminate.
  injection Hqs' as Hbest <-. rewrite <- Hbest in Hcase. fold final in Hcase.
  destruct Hcase as (_ & Hok & _).
  rewrite (Hok _ eq_refl Hrc), Hfs, Hinput.
  rewrite Hsame at 2. rewrite Hgone. reflexivity.
Qed.

(** ** An image that cannot be read (lines 45-47, 87, 91-97) *)

Lemma calculate_ssim_unreadable (w : World) (img1_path img2_path : string) (e : exn) :
  Image_open w img1_path = inl e ->
  calculate_ssim w img1_path img2_path = (float_zero, [PrintWarning e]).
Proof.
  intros Hopen. unfold calculate_ssim, ssim_attempt. rewrite Hopen. reflexivity.
Qed.

Lemma combine_all_zero :
  forall (qs : list Z) (scores : list pyfloat),
    List.length qs = List.length scores ->
    Forall (fun score => score = float_zero) scores ->
    combine qs scores = map (fun q => (q, float_zero)) qs.
Proof.
  induction qs as [|q qs IH]; intros [|score scores] Hlen Hall;
    try discriminate; [reflexivity|].
  inversion Hall as [|? ? Hz Hrest]; subst.
  cbn [combine map]. f_equal. apply IH; [|exact Hrest].
  cbn [List.length] in Hlen. congruence.
Qed.

(** X12.  When the source image cannot be opened and the target is above 0, every
    score the search prints is 0, no quality is accepted, and a search that
    returns gives [MAX_QUALITY]: the image is encoded at the highest
    quality. *)
Theorem unreadable_source_is_encoded_at_ceiling (input_path temp_path : string)
        (s : state) (best : Z) :
  (forall w, exists e, Image_open w input_path = inl e) ->
  good_enough cfg float_zero = false ->
  fst (quality_search cfg input_path temp_path s) = Return best ->
  best = MAX_QUALITY cfg /\
  exists qs,
    test_events (stdout (snd (quality_search cfg input_path temp_path s))) =
    test_events (stdout s) ++ map (fun q => (q, float_zero)) qs.
Proof.
  intros Hunreadable Hzero Hret.
  destruct (quality_search_run cfg input_path temp_path s)
    as (scores & out & Hrun & Hout).
  rewrite Hret in Hout.
  destruct out as [st|e|]; cbn [best_of] in Hout; try discriminate.
  injection Hout as ->.
  destruct Hrun as (_ & Hmeasured & Hevents & (-> & _ & _)).
  assert (Hall : Forall (fun score => score = float_zero) scores).
  { clear Hevents Hret. revert Hmeasured.
    generalize (tested cfg (initial_state cfg) scores) as qs.
    intros qs Hm. induction Hm as [|q score qs scores Hq _ IH]; constructor.
    - destruct Hq as (w & _ & <-).
      destruct (Hunreadable
                  (snd (run_process (search_cmd cfg q input_path temp_path) w)))
        as [e He].
      rewrite (calculate_ssim_unreadable _ _ _ _ He). reflexivity.
    - exact IH. }
  split.
  - rewrite replay_all_bad; [reflexivity|].
    eapply Forall_impl; [|exact Hall]. cbv beta. intros score ->. exact Hzero.
  - exists (tested cfg (initial_state cfg) scores).
    rewrite Hevents. f_equal. apply combine_all_zero; [|exact Hall].
    apply tested_length.
Qed.

End Files.

(** * File names (lines 64, 68-70) *)

Section Names.

Local Open Scope string_scope.

Lemma append_assoc (a b c : string) : (a ++ b) ++ c = a ++ (b ++ c).
Proof. induction a as [|ch a IH]; cbn; [reflexivity | rewrite IH; reflexivity]. Qed.

Lemma append_length (a b : string) :
  String.length (a ++ b) = (String.length a + String.length b)%nat.
Proof. induction a as [|ch a IH]; cbn; [reflexivity | rewrite IH; reflexivity]. Qed.

Lemma substring_all (s : string) : substring 0 (String.length s) s = s.
Proof. induction s as [|ch s IH]; cbn; [reflexivity | rewrite IH; reflexivity]. Qed.

Lemma substring_suffix (pre suffix : string) :
  substring (String.length pre) (String.length suffix) (pre ++ suffix) = suffix.
Proof. induction pre as [|ch pre IH]; cbn; [apply substring_all | exact IH]. Qed.

Lemma substring_split :
  forall (s : string) (m : nat),
    (m <= String.length s)%nat ->
    s = substring 0 m s ++ substring m (String.length s - m) s.
Proof.
  induction s as [|ch s IH]; intros m Hm.
  - cbn in Hm. assert (m = 0%nat) as -> by lia. reflexivity.
  - destruct m as [|m].
    + rewrite Nat.sub_0_r, substring_all. reflexivity.
    + cbn [String.length] in Hm. cbn [substring String.append String.length Nat.sub].
      f_equal. apply IH. lia.
Qed.

(** [s.endswith(suffix)] holds exactly when [s] is something followed by
    [suffix]. *)
Lemma endswith_spec (s suffix : string) :
  endswith s suffix = true <-> exists pre, s = pre ++ suffix.
Proof.
  unfold endswith. split.
  - intros Hend. apply andb_true_iff in Hend as [Hle Heq].
    apply Nat.leb_le in Hle. apply String.eqb_eq in Heq.
    exists (substring 0 (String.length s - String.length suffix) s).
    pose proof (substring_split s (String.length s - String.length suffix)
                  ltac:(lia)) as Hsplit.
    replace (String.length s - (String.length s - String.length suffix))%nat
      with (String.length suffix) in Hsplit by lia.
    rewrite Heq in Hsplit. exact Hsplit.
  - intros [pre ->]. rewrite append_length. apply andb_true_iff. split.
    + apply Nat.leb_le. lia.
    + replace (String.length pre + String.length suffix - String.length suffix)%nat
        with (String.length pre) by lia.
      rewrite substring_suffix. apply String.eqb_refl.
Qed.

Lemma lower_app (a b : string) : lower (a ++ b) = lower a ++ lower b.
Proof. induction a as [|ch a IH]; cbn; [reflexivity | rewrite IH; reflexivity]. Qed.

Lemma lower_split :
  forall (p q s : string),
    lower s = p ++ q -> exists a b, s = a ++ b /\ lower a = p /\ lower b = q.
Proof.
  induction p as [|ch p IH]; intros q s Hs.
  - exists "", s. repeat split. exact Hs.
  - destruct s as [|c s]; [discriminate|].
    cbn in Hs. injection Hs as Hc Hrest.
    destruct (IH q s Hrest) as (a & b & -> & Ha & Hb).
    exists (String c a), b. cbn. rewrite Hc, Ha. repeat split. exact Hb.
Qed.

(** Two ways of cutting a string at the same distance from its end cut off
    the same suffix. *)
Lemma suffix_unique :
  forall (p1 p2 s1 s2 : string),
    p1 ++ s1 = p2 ++ s2 -> String.length s1 = String.length s2 -> s1 = s2.
Proof.
  induction p1 as [|c1 p1 IH]; intros p2 s1 s2 Heq Hlen.
  - destruct p2 as [|c2 p2]; [exact Heq|].
    apply (f_equal String.length) in Heq. cbn in Heq.
    rewrite append_length in Heq. lia.
  - destruct p2 as [|c2 p2].
    + apply (f_equal String.length) in Heq. cbn in Heq.
      rewrite append_length in Heq. lia.
    + cbn in Heq. injection Heq as _ Heq. exact (IH _ _ _ Heq Hlen).
Qed.

(** X13.  [is_image_name] accepts exactly the names that end in [.png], [.jpg] or
    [.jpeg], in any mix of upper and lower case. *)
Theorem image_names_by_extension (filename : string) :
  is_image_name filename = true <->
  exists stem ext,
    filename = stem ++ ext /\ In (lower ext) [".png"; ".jpg"; ".jpeg"].
Proof.
  unfold is_image_name. cbv zeta. rewrite !orb_true_iff, !endswith_spec. split.
  - intros [[[pre Hs]|[pre Hs]]|[pre Hs]];
      destruct (lower_split _ _ _ Hs) as (a & b & -> & _ & Hb);
      exists a, b; (split; [reflexivity|]); rewrite Hb; cbn; tauto.
  - intros (stem & ext & -> & Hin). rewrite lower_app.
    destruct Hin as [<-|[<-|[<-|[]]]]; [left; left | left; right | right];
      exists (lower stem); reflexivity.
Qed.

(** X14.  The names the script writes, [<root>.webp] and [temp.webp], are never
    image names: a file it has produced is not picked up as a source, also
    when the output folder is the source folder. *)
Theorem written_names_are_no_image_names (file_root : string) :
  is_image_name (file_root ++ ".webp") = false /\
  is_image_name "temp.webp" = false.
Proof.
  split; [|reflexivity].
  destruct (is_image_name (file_root ++ ".webp")) eqn:Himg; [exfalso|reflexivity].
  unfold is_image_name in Himg. cbv zeta in Himg.
  rewrite lower_app in Himg. change (lower ".webp") with ".webp" in Himg.
  rewrite !orb_true_iff, !endswith_spec in Himg.
  destruct Himg as [[[pre Hs]|[pre Hs]]|[pre Hs]].
  - change ".webp" with ("." ++ "webp") in Hs. rewrite <- append_assoc in Hs.
    apply suffix_unique in Hs; [discriminate | reflexivity].
  - change ".webp" with ("." ++ "webp") in Hs. rewrite <- append_assoc in Hs.
    apply suffix_unique in Hs; [discriminate | reflexivity].
  - apply suffix_unique in Hs; [discriminate | reflexivity].
Qed.

End Names.

(** * The further properties on concrete worlds *)

Lemma pair_of_fst {A B : Type} (p : A * B) (a : A) :
  fst p = a -> p = (a, snd p).
Proof. intros <-. apply surjective_pairing. Qed.

Lemma demo_remove_gone (w : Demo.world) (p : string) :
  Demo.lookup p (Demo.demo_remove p w) = None.
Proof.
  induction w as [|[p' q] w IH]; [reflexivity|].
  cbn [Demo.demo_remove filter fst]. destruct (String.eqb p' p) eqn:Hp; cbn [negb].
  - exact IH.
  - cbn [Demo.lookup]. rewrite Hp. exact IH.
Qed.

Lemma demo_removed_file_is_gone (sim : Z -> pyfloat) (w : Demo.world) (p : string) :
  path_exists (Environment := Demo.scoring sim)
    (remove (Environment := Demo.scoring sim) p w) p = false.
Proof.
  cbn [path_exists remove Demo.scoring Demo.env]. rewrite demo_remove_gone.
  reflexivity.
Qed.

(** With the range 95..40 the only call for [a.png] is the final one, at
    quality 40. *)
Lemma empty_range_skips_search_witness :
  let E := Demo.scoring (Demo.step_at 55) in
  let cfg := Cases.inverted_config in
  MAX_QUALITY cfg < MIN_QUALITY cfg /\
  calls (snd (process_image cfg "a.png" (0, 0) (Demo.start []))) =
    [final_cmd cfg 40 "images/a.png" "optimized_images/a.webp"].
Proof.
  cbv zeta. split; [reflexivity|].
  destruct (empty_range_skips_search (H := Demo.scoring (Demo.step_at 55))
              Cases.inverted_config "a.png" (0, 0)
              (Demo.start (H := Demo.scoring (Demo.step_at 55)) []))
    as [_ Hcalls]; [reflexivity|].
  rewrite Hcalls. vm_compute. reflexivity.
Defined.

(** With the defaults (56 qualities) a completed search makes 5 or 6
    calls. *)
Lemma completed_search_call_count_witness :
  let E := Demo.scoring (Demo.step_at 55) in
  let input_path := "images/a.png" in
  let temp_path := "optimized_images/temp.webp" in
  MIN_QUALITY default_config <= MAX_QUALITY default_config /\
  fst (quality_search default_config input_path temp_path (Demo.start [])) =
    Return 55 /\
  exists qs,
    calls (snd (quality_search default_config input_path temp_path (Demo.start []))) =
      map (fun q => search_cmd default_config q input_path temp_path) qs /\
    5 <= Z.of_nat (List.length qs) <= 6.
Proof.
  cbv zeta. split; [cbn; lia|]. split; [vm_compute; reflexivity|].
  destruct (completed_search_call_count (H := Demo.scoring (Demo.step_at 55))
              default_config "images/a.png" "optimized_images/temp.webp"
              (Demo.start (H := Demo.scoring (Demo.step_at 55)) []) 55)
    as (qs & Hcalls & Hlen).
  - cbn. lia.
  - vm_compute. reflexivity.
  - exists qs. split; [rewrite Hcalls; reflexivity|].
    cbv zeta in Hlen.
    change (MAX_QUALITY default_config - MIN_QUALITY default_config + 1)
      with 56 in Hlen.
    change (Z.log2 (56 + 1)) with 5 in Hlen.
    change (Z.log2 56 + 1) with 6 in Hlen. exact Hlen.
Defined.

(** Without [cwebp] the script prints one line and stops. *)
Lemma missing_tool_runs_nothing_witness :
  let E := Cases.without_cwebp in
  which [] "cwebp" = None /\
  auto_optimize_images default_config (Demo.start []) =
    (Return tt, {| fs := []; calls := []; stdout := [PrintToolMissing] |}).
Proof.
  cbv zeta. split; [reflexivity|].
  rewrite (missing_tool_runs_nothing (H := Cases.without_cwebp) default_config
             (Demo.start (H := Cases.without_cwebp) []) eq_refl).
  reflexivity.
Defined.

(** A folder with a text file and a WebP file only. *)
Lemma folder_without_images_witness :
  let E := Cases.listing Cases.folder_of_notes in
  is_tool_installed [] "cwebp" = true /\
  filter is_image_name Cases.folder_of_notes = [] /\
  auto_optimize_images default_config (Demo.start []) =
    (Return tt,
     {| fs := []; calls := [];
        stdout := [PrintToolFound float_0_98; PrintNoImages] |}).
Proof.
  cbv zeta. split; [reflexivity|]. split; [reflexivity|].
  rewrite (folder_without_images (H := Cases.listing Cases.folder_of_notes)
             default_config
             (Demo.start (H := Cases.listing Cases.folder_of_notes) [])
             eq_refl eq_refl).
  reflexivity.
Defined.

(** Two images and a text file: the summary counts 2. *)
Lemma batch_reports_image_count_witness :
  let E := Cases.listing Cases.mixed_folder in
  let r := auto_optimize_images default_config (Demo.start []) in
  is_tool_installed [] "cwebp" = true /\
  r = (Return tt, snd r) /\
  exists total s1,
    for_each_file default_config Cases.mixed_folder (0, 0)
      (set_up default_config (Demo.start [])) = (Return (total, 2), s1) /\
    stdout (snd r) = stdout s1 ++ [PrintSummary 2 total].
Proof.
  cbv zeta.
  assert (Hrun :
    auto_optimize_images (H := Cases.listing Cases.mixed_folder) default_config
      (Demo.start (H := Cases.listing Cases.mixed_folder) []) =
    (Return tt,
     snd (auto_optimize_images (H := Cases.listing Cases.mixed_folder) default_config
            (Demo.start (H := Cases.listing Cases.mixed_folder) [])))).
  { apply pair_of_fst. vm_compute. reflexivity. }
  split; [reflexivity|]. split; [exact Hrun|].
  destruct (batch_reports_image_count (H := Cases.listing Cases.mixed_folder)
              default_config
              (Demo.start (H := Cases.listing Cases.mixed_folder) []) _
              eq_refl Hrun)
    as (total & s1 & Hloop & Hout).
  exists total, s1. split; [exact Hloop | exact Hout].
Defined.

(** Two images and a text file with the defaults: at most 2 * 8 calls. *)
Lemma batch_calls_bounded_witness :
  let E := Demo.scoring (Demo.step_at 55) in
  MIN_QUALITY default_config <= MAX_QUALITY default_config /\
  exists added,
    calls (snd (for_each_file default_config Cases.mixed_folder (0, 0)
                  (Demo.start []))) = added /\
    Z.of_nat (List.length added) <= 16.
Proof.
  cbv zeta.
  assert (Hrange : MIN_QUALITY default_config <= MAX_QUALITY default_config)
    by (cbn; lia).
  split; [exact Hrange|].
  destruct (batch_calls_bounded (H := Demo.scoring (Demo.step_at 55))
              default_config Cases.mixed_folder Hrange (0, 0)
              (Demo.start (H := Demo.scoring (Demo.step_at 55)) []))
    as (added & Hcalls & Hlen).
  exists added. split; [rewrite Hcalls; reflexivity|].
  change (Z.of_nat (List.length (filter is_image_name Cases.mixed_folder)))
    with 2 in Hlen.
  change (Z.log2_up (MAX_QUALITY default_config - MIN_QUALITY default_config + 1))
    with 6 in Hlen.
  exact Hlen.
Defined.

(** After [a.png] is processed, [temp.webp] is gone. *)
Lemma temp_file_removed_after_final_encode_witness :
  let E := Demo.scoring (Demo.step_at 55) in
  (forall w p, path_exists (remove p w) p = false) /\
  path_exists (fs (snd (process_image default_config "a.png" (0, 0) (Demo.start []))))
              (temp_path_of default_config) = false.
Proof.
  cbv zeta. split; [apply demo_removed_file_is_gone|].
  destruct (temp_file_removed_after_final_encode
              (H := Demo.scoring (Demo.step_at 55)) default_config "a.png" (0, 0)
              (Demo.start (H := Demo.scoring (Demo.step_at 55)) [])
              (snd (quality_search (H := Demo.scoring (Demo.step_at 55))
                      default_config (input_path_of default_config "a.png")
                      (temp_path_of default_config)
                      (announced (H := Demo.scoring (Demo.step_at 55)) "a.png"
                         (Demo.start (H := Demo.scoring (Demo.step_at 55)) []))))
              55 (demo_removed_file_is_gone (Demo.step_at 55)))
    as [Hok _].
  - apply pair_of_fst. vm_compute. reflexivity.
  - apply Hok. apply demo_encoder_ok.
Defined.

(** [temp.png] is encoded to [optimized_images/temp.webp], which the cleanup
    then removes. *)
Lemma image_named_temp_is_deleted_witness :
  let E := Demo.scoring (Demo.step_at 55) in
  (forall w p, path_exists (remove p w) p = false) /\
  splitext_root "temp.png" = "temp" /\
  output_path_of default_config "temp.png" = "optimized_images/temp.webp" /\
  path_exists (fs (snd (process_image default_config "temp.png" (0, 0)
                          (Demo.start []))))
              (output_path_of default_config "temp.png") = false.
Proof.
  cbv zeta. split; [apply demo_removed_file_is_gone|].
  split; [reflexivity|]. split; [reflexivity|].
  destruct (image_named_temp_is_deleted
              (H := Demo.scoring (Demo.step_at 55)) default_config "temp.png" (0, 0)
              (Demo.start (H := Demo.scoring (Demo.step_at 55)) [])
              (snd (quality_search (H := Demo.scoring (Demo.step_at 55))
                      default_config (input_path_of default_config "temp.png")
                      (temp_path_of default_config)
                      (announced (H := Demo.scoring (Demo.step_at 55)) "temp.png"
                         (Demo.start (H := Demo.scoring (Demo.step_at 55)) []))))
              55 (demo_removed_file_is_gone (Demo.step_at 55)) eq_refl)
    as [_ Hgone].
  - apply pair_of_fst. vm_compute. reflexivity.
  - apply demo_encoder_ok.
  - exact Hgone.
Defined.

(** [temp.png] ends with the [OSError] of its own output path. *)
Lemma image_named_temp_raises_witness :
  let E := Demo.scoring (Demo.step_at 55) in
  splitext_root "temp.png" = "temp" /\
  fst (process_image default_config "temp.png" (0, 0) (Demo.start [])) =
    Raise (OSError "optimized_images/temp.webp").
Proof.
  cbv zeta. split; [reflexivity|].
  apply (image_named_temp_raises
           (H := Demo.scoring (Demo.step_at 55)) default_config "temp.png" (0, 0)
           (Demo.start (H := Demo.scoring (Demo.step_at 55)) [])
           (snd (quality_search (H := Demo.scoring (Demo.step_at 55))
                   default_config (input_path_of default_config "temp.png")
                   (temp_path_of default_config)
                   (announced (H := Demo.scoring (Demo.step_at 55)) "temp.png"
                      (Demo.start (H := Demo.scoring (Demo.step_at 55)) []))))
           55 100).
  - reflexivity.
  - apply pair_of_fst. vm_compute. reflexivity.
  - apply demo_encoder_ok.
  - vm_compute. reflexivity.
  - vm_compute. reflexivity.
  - vm_compute. reflexivity.
Defined.

(** [images/a.png] cannot be read: the search returns 95. *)
Lemma unreadable_source_is_encoded_at_ceiling_witness :
  let E := Cases.unreadable "images/a.png" in
  let input_path := "images/a.png" in
  let temp_path := "optimized_images/temp.webp" in
  (forall w, exists e, Image_open w input_path = inl e) /\
  good_enough default_config float_zero = false /\
  fst (quality_search default_config input_path temp_path (Demo.start [])) =
    Return 95 /\
  95 = MAX_QUALITY default_config.
Proof.
  cbv zeta.
  assert (Hunreadable :
    forall w, exists e,
      Image_open (Environment := Cases.unreadable "images/a.png") w "images/a.png"
      = inl e).
  { intros w. eexists. reflexivity. }
  assert (Hret :
    fst (quality_search (H := Cases.unreadable "images/a.png") default_config
           "images/a.png" "optimized_images/temp.webp"
           (Demo.start (H := Cases.unreadable "images/a.png") [])) = Return 95).
  { vm_compute. reflexivity. }
  split; [exact Hunreadable|]. split; [reflexivity|]. split; [exact Hret|].
  destruct (unreadable_source_is_encoded_at_ceiling
              (H := Cases.unreadable "images/a.png") default_config
              "images/a.png" "optimized_images/temp.webp"
              (Demo.start (H := Cases.unreadable "images/a.png") []) 95
              Hunreadable eq_refl Hret) as [Hbest _].
  exact Hbest.
Defined.
